(** * jira-mcp: a shallow embedding of [src/index.ts]

    The server translates a tool call (a name and an argument bag) into
    authenticated HTTP requests against the Jira REST API and reshapes the
    JSON answers into text reports.  The embedding follows the TypeScript
    source function by function:

    - JavaScript values are the inductive type [value]; the argument bag and
      every remote answer are arbitrary values, as they are at run time
      ([args: any], [response.data]);
    - a thrown exception is the [Throw] case of [result]; handlers run in
      the monad [M], which threads the list of HTTP requests issued so far
      and keeps that list when an exception is thrown, so that [try]/[catch]
      observes the requests of the failed block;
    - the remote service is a function from the requests already issued and
      the current request to an answer or a rejection;
    - what the JavaScript platform supplies and the source does not define
      (number formatting and parsing, locale dates, base64, the lowering of
      a string's letters) is a section variable.

    Strings are Rocq strings, one character per code unit.  The tables for
    white space and line terminators, and the letter case of the regular
    expressions' [i] flag, are the ASCII ones, so the model is exact on
    ASCII text; the two report marks outside ASCII are written as their
    UTF-8 bytes and are only ever compared whole. *)

From Stdlib Require Import String Ascii List ZArith Lia Bool Arith.
From Stdlib Require Import Floats.SpecFloat DecimalString.
Import ListNotations.
Local Open Scope string_scope.
Set Warnings "-register-all".

(** ** Characters and strings *)

Definition nl : string := String (ascii_of_nat 10) EmptyString.
Definition dquote : string := String (ascii_of_nat 34) EmptyString.

Definition isUpper (c : ascii) : bool :=
  ((65 <=? nat_of_ascii c) && (nat_of_ascii c <=? 90))%nat.
Definition isLower (c : ascii) : bool :=
  ((97 <=? nat_of_ascii c) && (nat_of_ascii c <=? 122))%nat.
Definition lowerChar (c : ascii) : ascii :=
  if isUpper c then ascii_of_nat (nat_of_ascii c + 32) else c.
Definition upperChar (c : ascii) : ascii :=
  if isLower c then ascii_of_nat (nat_of_ascii c - 32) else c.

(** The lowering of the letters A to Z, which is what
    [String.prototype.toLowerCase] does to ASCII text.  The server takes
    the platform's function as a parameter; this one stands for it in the
    examples, whose texts are ASCII. *)
Fixpoint asciiToLowerCase (s : string) : string :=
  match s with
  | EmptyString => EmptyString
  | String c s' => String (lowerChar c) (asciiToLowerCase s')
  end.

(** White space and line terminators, the set of [\s] and of [trim]. *)
Definition isSpace (c : ascii) : bool :=
  let n := nat_of_ascii c in (((9 <=? n) && (n <=? 13)) || (n =? 32))%nat.
Definition isLineTerminator (c : ascii) : bool :=
  let n := nat_of_ascii c in ((n =? 10) || (n =? 13))%nat.

Fixpoint trimStart (s : string) : string :=
  match s with
  | String c s' => if isSpace c then trimStart s' else s
  | EmptyString => EmptyString
  end.

Fixpoint trimEnd (s : string) : string :=
  match s with
  | EmptyString => EmptyString
  | String c s' =>
      match trimEnd s' with
      | EmptyString => if isSpace c then EmptyString else String c EmptyString
      | t => String c t
      end
  end.

(** [String.prototype.trim]. *)
Definition trim (s : string) : string := trimEnd (trimStart s).

Definition isEmpty (s : string) : bool :=
  match s with EmptyString => true | _ => false end.

(** [String.prototype.includes]. *)
Fixpoint includes (hay needle : string) : bool :=
  prefix needle hay ||
  match hay with
  | EmptyString => false
  | String _ hay' => includes hay' needle
  end.

(** [Array.prototype.join] on strings. *)
Fixpoint join (sep : string) (l : list string) : string :=
  match l with
  | [] => EmptyString
  | [x] => x
  | x :: rest => x ++ sep ++ join sep rest
  end.

(** Decimal text of an array length or index. *)
Definition natToString (n : nat) : string :=
  NilEmpty.string_of_uint (Nat.to_uint n).

(** ** Values *)

(** A JavaScript value as the handlers meet it: [undefined] or something
    built by [JSON.parse].  Numbers are IEEE 754 doubles. *)
Inductive value : Type :=
| VUndefined
| VNull
| VBool (b : bool)
| VNum (x : spec_float)
| VStr (s : string)
| VArr (items : list value)
| VObj (props : list (string * value)).

(** Everything the source can throw is an [Error] instance; only its
    [message] is ever read.  [TypeError] is raised by the language itself,
    [JsError] by [throw new Error(...)] and by the HTTP client. *)
Inductive exn : Type :=
| JsError (message : string)
| TypeError (message : string).

Definition message (e : exn) : string :=
  match e with JsError m => m | TypeError m => m end.

Inductive result (A : Type) : Type :=
| Ok (a : A)
| Throw (e : exn).
Arguments Ok {A} a.
Arguments Throw {A} e.

Definition rbind {A B} (r : result A) (f : A -> result B) : result B :=
  match r with Ok a => f a | Throw e => Throw e end.

Fixpoint rmap {A B} (f : A -> result B) (l : list A) : result (list B) :=
  match l with
  | [] => Ok []
  | x :: rest =>
      rbind (f x) (fun y => rbind (rmap f rest) (fun ys => Ok (y :: ys)))
  end.

Definition numOfNat (n : nat) : spec_float :=
  binary_normalize 53 1024 (Z.of_nat n) 0 false.

Definition fifty : spec_float := Eval cbv in numOfNat 50.

(** Truthiness, the test of [if], [!], [||], [&&] and [?:]. *)
Definition truthy (v : value) : bool :=
  match v with
  | VUndefined | VNull => false
  | VBool b => b
  | VNum (S754_zero _) | VNum S754_nan => false
  | VNum _ => true
  | VStr s => negb (isEmpty s)
  | VArr _ | VObj _ => true
  end.

Definition nullish (v : value) : bool :=
  match v with VUndefined | VNull => true | _ => false end.

(** [a || b] *)
Definition orElse (a b : value) : value := if truthy a then a else b.

Fixpoint lookup (p : string) (props : list (string * value)) : option value :=
  match props with
  | [] => None
  | (k, v) :: rest => if String.eqb k p then Some v else lookup p rest
  end.

Definition hasOwn (p : string) (props : list (string * value)) : bool :=
  match lookup p props with Some _ => true | None => false end.

(** [v.p] for the property names the source reads.  Reading from
    [undefined] or [null] throws; an object yields its own property; a
    string or an array has [length]; nothing else the source asks for is
    defined on a primitive or on a prototype. *)
Definition get (v : value) (p : string) : result value :=
  match v with
  | VUndefined =>
      Throw (TypeError ("Cannot read properties of undefined (reading '" ++ p ++ "')"))
  | VNull =>
      Throw (TypeError ("Cannot read properties of null (reading '" ++ p ++ "')"))
  | VObj props =>
      Ok match lookup p props with Some x => x | None => VUndefined end
  | VStr s => Ok (if String.eqb p "length" then VNum (numOfNat (String.length s)) else VUndefined)
  | VArr l => Ok (if String.eqb p "length" then VNum (numOfNat (List.length l)) else VUndefined)
  | VBool _ | VNum _ => Ok VUndefined
  end.

(** [v?.p] *)
Definition optGet (v : value) (p : string) : result value :=
  if nullish v then Ok VUndefined else get v p.

(** [a === b].  Two objects or arrays reaching a comparison in the source
    always stem from different allocations, hence are never identical. *)
Definition strictEq (a b : value) : bool :=
  match a, b with
  | VUndefined, VUndefined => true
  | VNull, VNull => true
  | VBool x, VBool y => Bool.eqb x y
  | VNum x, VNum y => SFeqb x y
  | VStr x, VStr y => String.eqb x y
  | _, _ => false
  end.

(** ** The HTTP client *)

Inductive Method : Type := GET | POST | PUT.

(** The request object handed to [axios]. *)
Record AxiosConfig : Type := {
  method : Method;
  url : string;
  headers : list (string * string);
  params : option value;
  data : option value
}.

(** [interface JiraConfig] *)
Record JiraConfig : Type := {
  baseUrl : string;
  email : string;
  apiToken : string
}.

(** The [options] argument of [makeJiraRequest]. *)
Record Options : Type := {
  o_params : option value;
  o_data : option value;
  o_method : option Method
}.

(** The response envelope [{ content: [{ type, text }] }]. *)
Record Content : Type := { type : string; text : string }.
Record Envelope : Type := { content : list Content }.

Definition textEnvelope (t : string) : Envelope :=
  {| content := [ {| type := "text"; text := t |} ] |}.

(** The remote service: its answer to a request may depend on the requests
    issued before; a rejection is the error the HTTP client throws. *)
Definition Remote : Type := list AxiosConfig -> AxiosConfig -> result value.

(** ** The handler monad *)

(** A computation takes the requests issued so far and gives a value or a
    thrown exception together with the requests issued up to that point. *)
Definition M (A : Type) : Type :=
  list AxiosConfig -> result A * list AxiosConfig.

Definition ret {A} (a : A) : M A := fun log => (Ok a, log).
Definition throw {A} (e : exn) : M A := fun log => (Throw e, log).
Definition bind {A B} (m : M A) (f : A -> M B) : M B :=
  fun log =>
    match m log with
    | (Ok a, log') => f a log'
    | (Throw e, log') => (Throw e, log')
    end.
(** [try { m } catch (error) { h error }] *)
Definition tryCatch {A} (m : M A) (h : exn -> M A) : M A :=
  fun log =>
    match m log with
    | (Ok a, log') => (Ok a, log')
    | (Throw e, log') => h e log'
    end.
Definition lift {A} (r : result A) : M A := fun log => (r, log).

Declare Scope js_scope.
Delimit Scope js_scope with js.
Notation "x <- m ;; k" := (bind m (fun x => k))
  (at level 61, m at next level, right associativity) : js_scope.
Notation "x <~ r ;; k" := (bind (lift r) (fun x => k))
  (at level 61, r at next level, right associativity) : js_scope.
Local Open Scope js_scope.

(** ** Regular expressions *)

(** The fragment of the regular-expression language the source uses, with
    the backtracking semantics of the language specification: a matcher
    takes the rest of the input and a continuation, tries its alternatives
    in priority order, and the first one whose continuation succeeds wins.
    None of the patterns looks behind the current position, so a match
    attempt depends on the rest of the input only. *)
Inductive regex : Type :=
| REmpty
| RChar (c : ascii)               (* a literal character *)
| RDot                            (* .       *)
| RSpace                          (* \s      *)
| RRange (lo hi : ascii)          (* [lo-hi] *)
| RSet (cs : list ascii)          (* [abc]   *)
| RSeq (r1 r2 : regex)
| RAlt (r1 r2 : regex)            (* r1|r2   *)
| ROpt (r : regex)                (* r?      *)
| RStar (r : regex)               (* r*      *)
| RStarLazy (r : regex)           (* r*?     *)
| RGroup (r : regex)              (* (r)     *)
| RLookahead (r : regex)          (* (?=r)   *)
| REnd.                           (* $ without the m flag *)

Record Flags : Type := { ignoreCase : bool; dotAll : bool }.

Definition flags_gsi : Flags := {| ignoreCase := true; dotAll := true |}.
Definition flags_g : Flags := {| ignoreCase := false; dotAll := false |}.
Definition flags_i : Flags := {| ignoreCase := true; dotAll := false |}.

(** A literal string. *)
Fixpoint lit (s : string) : regex :=
  match s with
  | EmptyString => REmpty
  | String c EmptyString => RChar c
  | String c s' => RSeq (RChar c) (lit s')
  end.

Fixpoint seq (rs : list regex) : regex :=
  match rs with
  | [] => REmpty
  | [r] => r
  | r :: rest => RSeq r (seq rest)
  end.

(** Canonicalisation under the [i] flag, without the [u] flag. *)
Definition canonicalize (fl : Flags) (c : ascii) : ascii :=
  if ignoreCase fl then upperChar c else c.

Definition charMatches (fl : Flags) (c a : ascii) : bool :=
  Ascii.eqb (canonicalize fl c) (canonicalize fl a).

Definition inRange (lo hi a : ascii) : bool :=
  ((nat_of_ascii lo <=? nat_of_ascii a) && (nat_of_ascii a <=? nat_of_ascii hi))%nat.

(** A class matches [a] when one of its members canonicalises like [a]. *)
Definition rangeMatches (fl : Flags) (lo hi a : ascii) : bool :=
  inRange lo hi a ||
  (ignoreCase fl && (inRange lo hi (upperChar a) || inRange lo hi (lowerChar a))).

Definition setMatches (fl : Flags) (cs : list ascii) (a : ascii) : bool :=
  existsb (fun c => charMatches fl c a) cs.

Definition dotMatches (fl : Flags) (a : ascii) : bool :=
  dotAll fl || negb (isLineTerminator a).

Definition single (ok : ascii -> bool) (s : string)
  (k : string -> option string) : option string :=
  match s with
  | String a s' => if ok a then k s' else None
  | EmptyString => None
  end.

Definition orTry (a : option string) (b : unit -> option string) : option string :=
  match a with Some x => Some x | None => b tt end.

(** [matcher fl r s k]: match [r] at the head of [s], then run [k] on
    what is left; the answer is what is left after the whole match.  A
    repetition runs at most [length s] rounds, and each round has to
    consume input, as the specification demands of an iteration that
    could otherwise match the empty string for ever. *)
Fixpoint matcher (fl : Flags) (r : regex) (s : string)
  (k : string -> option string) {struct r} : option string :=
  match r with
  | REmpty => k s
  | RChar c => single (charMatches fl c) s k
  | RDot => single (dotMatches fl) s k
  | RSpace => single isSpace s k
  | RRange lo hi => single (rangeMatches fl lo hi) s k
  | RSet cs => single (setMatches fl cs) s k
  | RSeq r1 r2 => matcher fl r1 s (fun s1 => matcher fl r2 s1 k)
  | RAlt r1 r2 => orTry (matcher fl r1 s k) (fun _ => matcher fl r2 s k)
  | ROpt r1 => orTry (matcher fl r1 s k) (fun _ => k s)
  | RStar r1 =>
      (fix star (n : nat) (s : string) {struct n} : option string :=
         match n with
         | O => k s
         | S n' =>
             orTry
               (matcher fl r1 s (fun s' =>
                  if (String.length s' <? String.length s)%nat
                  then star n' s' else None))
               (fun _ => k s)
         end) (String.length s) s
  | RStarLazy r1 =>
      (fix star (n : nat) (s : string) {struct n} : option string :=
         match n with
         | O => k s
         | S n' =>
             orTry (k s)
               (fun _ => matcher fl r1 s (fun s' =>
                  if (String.length s' <? String.length s)%nat
                  then star n' s' else None))
         end) (String.length s) s
  | RGroup r1 => matcher fl r1 s k
  | RLookahead r1 =>
      match matcher fl r1 s (fun s' => Some s') with
      | Some _ => k s
      | None => None
      end
  | REnd => if isEmpty s then k s else None
  end.

(** One match attempt at the head of [s]: the matched text and the rest. *)
Definition exec (fl : Flags) (r : regex) (s : string) : option (string * string) :=
  match matcher fl r s (fun rest => Some rest) with
  | Some rest => Some (substring 0 (String.length s - String.length rest) s, rest)
  | None => None
  end.

(** [s.match(r)] with the [g] flag: every match from left to right, the
    search resuming where the previous match ended (one character further
    after an empty match).  [skip] counts the characters still covered by
    the previous match.  The empty list stands for [null]. *)
Fixpoint matchFrom (fl : Flags) (r : regex) (s : string) (skip : nat) : list string :=
  match s with
  | EmptyString =>
      match skip, exec fl r EmptyString with
      | O, Some (m, _) => [m]
      | _, _ => []
      end
  | String _ s' =>
      match skip with
      | S skip' => matchFrom fl r s' skip'
      | O =>
          match exec fl r s with
          | Some (m, _) => m :: matchFrom fl r s' (String.length m - 1)
          | None => matchFrom fl r s' 0
          end
      end
  end.

Definition matchAll (fl : Flags) (r : regex) (s : string) : list string :=
  matchFrom fl r s 0.

(** [s.replace(r, '')] without the [g] flag: the leftmost match is cut out. *)
Fixpoint replaceFirst (fl : Flags) (r : regex) (s : string) : string :=
  match matcher fl r s (fun rest => Some rest) with
  | Some rest => rest
  | None =>
      match s with
      | EmptyString => EmptyString
      | String c s' => String c (replaceFirst fl r s')
      end
  end.

(** ** The acceptance-criteria extractor *)

Definition sectionEnd : regex :=
  RLookahead (RAlt (lit (nl ++ nl)) (RAlt (RSeq (lit nl) (RRange "A" "Z")) REnd)).

(** [/acceptance criteria:?\s*(.*?)(?=\n\n|\n[A-Z]|$)/gsi] *)
Definition pat_acceptance : regex :=
  seq [lit "acceptance criteria"; ROpt (RChar ":"); RStar RSpace;
       RGroup (RStarLazy RDot); sectionEnd].
(** [/ac:?\s*(.*?)(?=\n\n|\n[A-Z]|$)/gsi] *)
Definition pat_ac : regex :=
  seq [lit "ac"; ROpt (RChar ":"); RStar RSpace;
       RGroup (RStarLazy RDot); sectionEnd].
(** [/given.*when.*then.*/gsi] *)
Definition pat_gwt : regex :=
  seq [lit "given"; RStar RDot; lit "when"; RStar RDot; lit "then"; RStar RDot].
(** [/- \[[ x]\] .*/g] *)
Definition pat_checkbox : regex :=
  seq [lit "- ["; RSet [" "; "x"]%char; lit "] "; RStar RDot].
(** [/\* .*/g] *)
Definition pat_bullet : regex :=
  seq [lit "* "; RStar RDot].

Definition patterns : list (Flags * regex) :=
  [ (flags_gsi, pat_acceptance); (flags_gsi, pat_ac); (flags_gsi, pat_gwt);
    (flags_g, pat_checkbox); (flags_g, pat_bullet) ].

(** [/acceptance criteria:?/i] and [/ac:?/i] *)
Definition label_acceptance : regex := seq [lit "acceptance criteria"; ROpt (RChar ":")].
Definition label_ac : regex := seq [lit "ac"; ROpt (RChar ":")].

(** [match.replace(/acceptance criteria:?/i, '').replace(/ac:?/i, '').trim()] *)
Definition clean (m : string) : string :=
  trim (replaceFirst flags_i label_ac (replaceFirst flags_i label_acceptance m)).

(** [criteria.includes(x)] *)
Definition arrayIncludes (criteria : list string) (x : string) : bool :=
  existsb (String.eqb x) criteria.

(** The body of the [forEach] callback. *)
Definition pushCleaned (criteria : list string) (m : string) : list string :=
  let cleaned := clean m in
  if negb (isEmpty cleaned) && negb (arrayIncludes criteria cleaned)
  then (criteria ++ [cleaned])%list
  else criteria.

(** The two nested loops, on a description that is a string. *)
Definition collectCriteria (description : string) : list string :=
  fold_left
    (fun criteria p => fold_left pushCleaned (matchAll (fst p) (snd p) description) criteria)
    patterns [].

(** [extractAcceptanceCriteria]: a falsy description gives the empty list;
    a truthy value that is not a string has no [match] method. *)
Definition extractAcceptanceCriteria (description : value) : result (list string) :=
  if negb (truthy description) then Ok []
  else
    match description with
    | VStr d => Ok (collectCriteria d)
    | _ => Throw (TypeError "description.match is not a function")
    end.

(** ** Vocabulary of the statements *)

(** [reading r P]: the read [r] succeeds and its value satisfies [P]. *)
Definition reading (r : result value) (P : value -> bool) : bool :=
  match r with Ok v => P v | Throw _ => false end.

(** [args?.p], which never throws. *)
Definition argument (args : value) (p : string) : value :=
  match optGet args p with Ok v => v | Throw _ => VUndefined end.

(** [s] contains [t]. *)
Definition mentions (s t : string) : Prop :=
  exists before after, s = before ++ t ++ after.

(** An optional argument that is absent or the empty string. *)
Definition unsupplied (v : value) : bool :=
  match v with
  | VUndefined => true
  | VStr EmptyString => true
  | _ => false
  end.

(** A value that is neither an array nor an object. *)
Definition isScalar (v : value) : bool :=
  match v with VArr _ | VObj _ => false | _ => true end.

(** The spec's reading of the extractor: every match of every pattern, in
    pattern order; the cleaned texts that are not empty; each distinct
    text once, at the place of its first occurrence. *)
Definition allMatches (description : string) : list string :=
  flat_map (fun p => matchAll (fst p) (snd p) description) patterns.

Definition cleanedMatches (description : string) : list string :=
  filter (fun c => negb (isEmpty c)) (map clean (allMatches description)).

Fixpoint firstSeen (l : list string) : list string :=
  match l with
  | [] => []
  | x :: rest => x :: filter (fun y => negb (String.eqb y x)) (firstSeen rest)
  end.

(** The spec's reading of transition resolution: the name equals the
    requested text up to letter case, or the id is that very text.  Letter
    case is the platform's: two texts are equal up to case when
    [toLowerCase] sends them to the same text. *)
Definition nameOf (t : value) : option string :=
  match t with
  | VObj props =>
      match lookup "name" props with Some (VStr n) => Some n | _ => None end
  | _ => None
  end.

Definition idOf (t : value) : value :=
  match t with
  | VObj props => match lookup "id" props with Some i => i | None => VUndefined end
  | _ => VUndefined
  end.

Definition resolves (toLowerCase : string -> string) (wanted : string) (t : value) : bool :=
  match nameOf t with
  | Some n => String.eqb (toLowerCase n) (toLowerCase wanted) || strictEq (idOf t) (VStr wanted)
  | None => false
  end.

(** A transition as the remote lists it: an object with a textual name. *)
Definition namedTransition (t : value) : bool :=
  match nameOf t with Some _ => true | None => false end.

(** ** Sample data *)

Definition sampleConfig : JiraConfig :=
  {| baseUrl := "https://example.atlassian.net";
     email := "dev@example.com";
     apiToken := "secret" |}.

(** Stand-ins for the platform functions. *)
Definition sampleNumberToString (x : spec_float) : string :=
  match x with
  | S754_zero _ => "0"
  | S754_nan => "NaN"
  | S754_infinity s => if s then "-Infinity" else "Infinity"
  | S754_finite _ _ _ => "1"
  end.
Definition sampleStringToNumber (s : string) : spec_float := S754_nan.
Definition sampleDate (v : value) : string := "Invalid Date".
Definition sampleBase64 (s : string) : string := s.
Definition sampleToLowerCase : string -> string := asciiToLowerCase.

(** A remote that rejects every request, and one that answers every
    request with the same body. *)
Definition rejecting (why : string) : Remote := fun _ _ => Throw (JsError why).
Definition answering (body : value) : Remote := fun _ _ => Ok body.

Definition doneTransitions : value :=
  VObj [("transitions",
         VArr [VObj [("id", VStr "1"); ("name", VStr "Done");
                     ("to", VObj [("name", VStr "Done")])]])].

Definition issueWithoutDescription : value :=
  VObj [("key", VStr "PROJ-1");
        ("fields",
         VObj [("summary", VStr "Fix login");
               ("status", VObj [("name", VStr "Open")]);
               ("assignee", VNull);
               ("priority", VObj [("name", VStr "High")]);
               ("created", VStr "2024-01-01T00:00:00.000+0000");
               ("updated", VStr "2024-01-02T00:00:00.000+0000");
               ("description", VNull)])].


(** ** Configuration *)

(** [process.env.NAME || fallback]: an unset or empty variable gives the
    fallback. *)
Definition envOr (env : string -> option string) (name fallback : string) : string :=
  match env name with
  | Some v => if isEmpty v then fallback else v
  | None => fallback
  end.

(** The configuration the constructor reads from the environment. *)
Definition loadConfig (env : string -> option string) : JiraConfig :=
  {| baseUrl := envOr env "JIRA_BASE_URL" "https://your-domain.atlassian.net";
     email := envOr env "JIRA_EMAIL" EmptyString;
     apiToken := envOr env "JIRA_API_TOKEN" EmptyString |}.

(** Environments for the examples. *)
Definition emptyEnv : string -> option string := fun _ => None.

(** A remote that rejects every [GET] and accepts everything else. *)
Definition rejectingGets (why : string) : Remote :=
  fun _ c =>
    match method c with
    | GET => Throw (JsError why)
    | _ => Ok (VStr EmptyString)
    end.

Definition inReview : value :=
  VObj [("transitions",
         VArr [VObj [("id", VStr "11"); ("name", VStr "In Review");
                     ("to", VObj [("name", VStr "In Review")])]])].

Definition oneIssueFound : value :=
  VObj [("issues",
         VArr [VObj [("key", VStr "PROJ-1");
                     ("fields",
                      VObj [("summary", VStr "Fix login");
                            ("status", VObj [("name", VStr "Open")]);
                            ("assignee", VNull);
                            ("priority", VObj [("name", VStr "High")])])]])].

Definition oneComment : value :=
  VObj [("comments",
         VArr [VObj [("author", VObj [("displayName", VStr "Ada")]);
                     ("created", VStr "2024-01-01T00:00:00.000+0000");
                     ("renderedBody", VUndefined);
                     ("body", VStr "Looks good")]])].


Definition issueWithStructuredDescription : value :=
  VObj [("key", VStr "PROJ-1");
        ("fields",
         VObj [("summary", VStr "Fix login");
               ("description", VObj [("type", VStr "doc")])])].

Definition created : value := VObj [("key", VStr "PROJ-7")].

(** ** The server *)

Section Server.

(** The configuration read at start-up and the remote service. *)
Variable config : JiraConfig.
Variable remote : Remote.

(** Supplied by the platform: [Number.prototype.toString], the numeric
    value of a string, [new Date(p).toLocaleDateString()] for a primitive
    [p], [Buffer.from(s).toString('base64')] and
    [String.prototype.toLowerCase]. *)
Variable numberToString : spec_float -> string.
Variable stringToNumber : string -> spec_float.
Variable toLocaleDateString : value -> string.
Variable base64 : string -> string.
Variable toLowerCase : string -> string.

(** *** Conversions *)

Definition cannotConvert : exn :=
  TypeError "Cannot convert object to primitive value".

(** [Array.prototype.join]: [undefined] and [null] items print as the
    empty string. *)
Fixpoint joinValues (str : value -> result string) (sep : string)
  (l : list value) : result string :=
  match l with
  | [] => Ok EmptyString
  | x :: rest =>
      rbind (if nullish x then Ok EmptyString else str x) (fun a =>
      match rest with
      | [] => Ok a
      | _ => rbind (joinValues str sep rest) (fun b => Ok (a ++ sep ++ b))
      end)
  end.

(** The string conversion of template literals.  An object prints through
    [Object.prototype.toString], unless it carries an own [toString]
    property: a parsed value is never callable, and the inherited
    [valueOf] gives back the object, so the conversion fails. *)
Fixpoint toString (v : value) : result string :=
  match v with
  | VUndefined => Ok "undefined"
  | VNull => Ok "null"
  | VBool b => Ok (if b then "true" else "false")
  | VNum x => Ok (numberToString x)
  | VStr s => Ok s
  | VArr l => joinValues toString "," l
  | VObj props =>
      if hasOwn "toString" props then Throw cannotConvert
      else Ok "[object Object]"
  end.

Definition toPrimitive (v : value) : result value :=
  match v with
  | VArr _ | VObj _ => rbind (toString v) (fun s => Ok (VStr s))
  | _ => Ok v
  end.

Definition toNumber (v : value) : result spec_float :=
  match v with
  | VUndefined => Ok S754_nan
  | VNull => Ok (S754_zero false)
  | VBool b => Ok (numOfNat (if b then 1 else 0))
  | VNum x => Ok x
  | VStr s => Ok (stringToNumber s)
  | VArr _ | VObj _ => rbind (toString v) (fun s => Ok (stringToNumber s))
  end.

(** [new Date(v).toLocaleDateString()] *)
Definition dateString (v : value) : result string :=
  rbind (toPrimitive v) (fun p => Ok (toLocaleDateString p)).

(** A template literal: its pieces are converted from left to right. *)
Fixpoint template (parts : list (result string)) : result string :=
  match parts with
  | [] => Ok EmptyString
  | p :: rest =>
      rbind p (fun a => rbind (template rest) (fun b => Ok (a ++ b)))
  end.

Notation "'$' v" := (toString v) (at level 9, v at level 9) : js_scope.
Notation "'#' s" := (@Ok string s) (at level 9, s at level 9) : js_scope.

(** *** [makeJiraRequest] *)

(** [axios(config)], then [response.data]: the request is recorded, the
    remote answers. *)
Definition axios (c : AxiosConfig) : M value :=
  fun log => (remote log c, (log ++ [c])%list).

Definition noOptions : Options :=
  {| o_params := None; o_data := None; o_method := None |}.

Definition whenTruthy (o : option value) : option value :=
  match o with
  | Some v => if truthy v then Some v else None
  | None => None
  end.

(** The [config] object [makeJiraRequest] builds. *)
Definition requestConfig (endpoint : string) (options : Options) : AxiosConfig :=
  let auth := base64 (email config ++ ":" ++ apiToken config) in
  let apiBase := baseUrl config ++ "/rest/api/3" in
  let method := match o_method options with Some m => m | None => GET end in
  {| method := method;
     url := apiBase ++ endpoint;
     headers :=
       ([("Authorization", ("Basic " ++ auth)%string); ("Accept", "application/json")]
        ++ match method with
           | GET => []
           | _ => [("Content-Type", "application/json")]
           end)%list;
     params := whenTruthy (o_params options);
     data := whenTruthy (o_data options) |}.

Definition makeJiraRequest (endpoint : string) (options : Options) : M value :=
  axios (requestConfig endpoint options).

(** [recv.f(...)] on a value that is nullish or has no such method. *)
Definition notAFunction {A} (what : string) : result A :=
  Throw (TypeError (what ++ " is not a function")).

(** [xs?.map(f) || []] on a remote value. *)
Definition optMap {A} (what : string) (f : value -> result A) (xs : value)
  : result (list A) :=
  if nullish xs then Ok []
  else match xs with
       | VArr l => rmap f l
       | _ => notAFunction (what ++ "?.map")
       end.

(** A chain [v.a?.b]. *)
Definition getOpt (v : value) (a b : string) : result value :=
  rbind (get v a) (fun x => optGet x b).

(** *** [getIssue] *)

Definition getIssue (issueKey : value) : M Envelope :=
  endpoint <~ template [#"/issue/"; $issueKey] ;;
  resp <- makeJiraRequest endpoint
    {| o_params := Some (VObj
         [("fields", VStr "summary,status,assignee,priority,created,updated,description,issuetype,reporter,parent");
          ("expand", VStr "renderedFields")]);
       o_data := None; o_method := None |} ;;
  rendered <~ getOpt resp "renderedFields" "description" ;;
  description <~ (if truthy rendered then Ok rendered
                  else getOpt resp "fields" "description") ;;
  acceptanceCriteria <~ extractAcceptanceCriteria description ;;
  r_key <~ get resp "key" ;;
  fields <~ get resp "fields" ;;
  r_summary <~ get fields "summary" ;;
  r_status <~ getOpt fields "status" "name" ;;
  assigneeName <~ getOpt fields "assignee" "displayName" ;;
  let r_assignee := orElse assigneeName (VStr "Unassigned") in
  r_reporter <~ getOpt fields "reporter" "displayName" ;;
  r_priority <~ getOpt fields "priority" "name" ;;
  r_created <~ get fields "created" ;;
  r_updated <~ get fields "updated" ;;
  r_url <~ template [#(baseUrl config); #"/browse/"; $r_key] ;;
  report <~ template
    [#"**"; $r_key; #": "; $r_summary; #"**"; #nl; #nl;
     #"**Status:** "; $r_status; #nl;
     #"**Assignee:** "; $r_assignee; #nl;
     #"**Priority:** "; $r_priority; #nl;
     #"**URL:** "; #r_url; #nl; #nl;
     #"**Description:**"; #nl;
     $description; #nl; #nl;
     #"**Acceptance Criteria:**"; #nl;
     #(match acceptanceCriteria with
       | [] => "None found"
       | _ => join nl
                (map (fun p => natToString (fst p + 1) ++ ". " ++ snd p)
                   (combine (List.seq 0 (List.length acceptanceCriteria)) acceptanceCriteria))
       end); #nl; #nl;
     #"**Created:** "; dateString r_created; #nl;
     #"**Updated:** "; dateString r_updated] ;;
  ret (textEnvelope report).

(** *** [searchIssues] *)

Record IssueSummary : Type := {
  i_key : value;
  i_summary : value;
  i_status : value;
  i_assignee : value;
  i_priority : value;
  i_url : string
}.

Definition issueSummary (issue : value) : result IssueSummary :=
  rbind (get issue "key") (fun k =>
  rbind (get issue "fields") (fun fields =>
  rbind (get fields "summary") (fun summary =>
  rbind (getOpt fields "status" "name") (fun status =>
  rbind (getOpt fields "assignee" "displayName") (fun assigneeName =>
  rbind (getOpt fields "priority" "name") (fun priority =>
  rbind (template [#(baseUrl config); #"/browse/"; $k]) (fun u =>
  Ok {| i_key := k; i_summary := summary; i_status := status;
        i_assignee := orElse assigneeName (VStr "Unassigned");
        i_priority := priority; i_url := u |}))))))).

Definition issueBlock (issue : IssueSummary) : result string :=
  template
    [#"**"; $(i_key issue); #"**: "; $(i_summary issue); #nl;
     #"- Status: "; $(i_status issue); #nl;
     #"- Assignee: "; $(i_assignee issue); #nl;
     #"- Priority: "; $(i_priority issue); #nl;
     #"- URL: "; #(i_url issue)].

Definition searchIssues (jql maxResults : value) : M Envelope :=
  resp <- makeJiraRequest "/search"
    {| o_params := Some (VObj
         [("jql", jql); ("maxResults", maxResults);
          ("fields", VStr "summary,status,assignee,priority,created,updated")]);
       o_data := None; o_method := None |} ;;
  listed <~ get resp "issues" ;;
  issues <~ optMap "data.issues" issueSummary listed ;;
  blocks <~ rmap issueBlock issues ;;
  ret (textEnvelope
         ("Found " ++ natToString (List.length issues) ++ " issues:" ++ nl ++ nl
          ++ join (nl ++ nl) blocks)).

(** *** [getIssueComments] *)

Record Comment : Type := {
  c_author : value;
  c_created : value;
  c_body : value
}.

Definition comment (c : value) : result Comment :=
  rbind (get c "author") (fun author =>
  rbind (get author "displayName") (fun displayName =>
  rbind (get c "created") (fun created =>
  rbind (get c "renderedBody") (fun renderedBody =>
  rbind (if truthy renderedBody then Ok renderedBody else get c "body") (fun body =>
  Ok {| c_author := displayName; c_created := created; c_body := body |}))))).

Definition commentBlock (c : Comment) : result string :=
  template
    [#"**"; $(c_author c); #"** ("; dateString (c_created c); #"):"; #nl;
     $(c_body c)].

Definition getIssueComments (issueKey : value) : M Envelope :=
  endpoint <~ template [#"/issue/"; $issueKey; #"/comment"] ;;
  resp <- makeJiraRequest endpoint noOptions ;;
  listed <~ get resp "comments" ;;
  comments <~ optMap "data.comments" comment listed ;;
  heading <~ template [#"Comments for "; $issueKey; #":"; #nl; #nl] ;;
  blocks <~ rmap commentBlock comments ;;
  ret (textEnvelope (heading ++ join (nl ++ nl ++ "---" ++ nl ++ nl) blocks)).

(** *** [getTransitions] *)

Record Transition : Type := {
  t_id : value;
  t_name : value;
  t_to : value
}.

Definition transitionOf (t : value) : result Transition :=
  rbind (get t "id") (fun id =>
  rbind (get t "name") (fun name =>
  rbind (getOpt t "to" "name") (fun to =>
  Ok {| t_id := id; t_name := name; t_to := to |}))).

Definition transitionLine (t : Transition) : result string :=
  template [#"**"; $(t_name t); #"** (ID: "; $(t_id t); #") -> "; $(t_to t)].

Definition getTransitions (issueKey : value) : M Envelope :=
  endpoint <~ template [#"/issue/"; $issueKey; #"/transitions"] ;;
  resp <- makeJiraRequest endpoint noOptions ;;
  listed <~ get resp "transitions" ;;
  transitions <~ optMap "data.transitions" transitionOf listed ;;
  heading <~ template [#"Available transitions for "; $issueKey; #":"; #nl; #nl] ;;
  lines <~ rmap transitionLine transitions ;;
  ret (textEnvelope (heading ++ join nl lines)).

(** *** [updateIssue] *)

(** [const { p, ... } = args]: the pattern fails on [undefined] and [null]. *)
Definition destructure (args : value) (p : string) : result value :=
  if nullish args
  then Throw (TypeError ("Cannot destructure property '" ++ p ++ "' of 'args' as it is undefined."))
  else get args p.

(** [v.toLowerCase()] *)
Definition callToLowerCase (what : string) (v : value) : result string :=
  match v with
  | VStr s => Ok (toLowerCase s)
  | _ => rbind (get v "toLowerCase") (fun _ => notAFunction (what ++ ".toLowerCase"))
  end.

(** [Array.prototype.find] with a callback that may throw. *)
Fixpoint find (pred : value -> result bool) (l : list value) : result value :=
  match l with
  | [] => Ok VUndefined
  | t :: rest => rbind (pred t) (fun b => if b then Ok t else find pred rest)
  end.

(** [t.name.toLowerCase() === transition.toLowerCase() || t.id === transition] *)
Definition transitionMatches (transition t : value) : result bool :=
  rbind (get t "name") (fun name =>
  rbind (callToLowerCase "t.name" name) (fun lname =>
  rbind (callToLowerCase "transition" transition) (fun lwanted =>
  if String.eqb lname lwanted then Ok true
  else rbind (get t "id") (fun id => Ok (strictEq id transition))))).

(** [transitionsData.transitions?.find(...)] *)
Definition findTransition (transition listed : value) : result value :=
  if nullish listed then Ok VUndefined
  else match listed with
       | VArr l => find (transitionMatches transition) l
       | _ => notAFunction "transitionsData.transitions?.find"
       end.

Definition tick : string := "✓".
Definition cross : string := "✗".

(** The status phase: with nothing asked, [updateResult] stays as it is. *)
Definition changeStatus (issueKey transition : value) (updateResult : string)
  : M string :=
  if truthy transition then
    tryCatch
      (endpoint <~ template [#"/issue/"; $issueKey; #"/transitions"] ;;
       transitionsData <- makeJiraRequest endpoint noOptions ;;
       listed <~ get transitionsData "transitions" ;;
       availableTransition <~ findTransition transition listed ;;
       if negb (truthy availableTransition) then
         msg <~ template [#"Transition "; #dquote; $transition; #dquote;
                         #" not found. Use jira_get_transitions to see available options."] ;;
         throw (JsError msg)
       else
         endpoint' <~ template [#"/issue/"; $issueKey; #"/transitions"] ;;
         id <~ get availableTransition "id" ;;
         _ <- makeJiraRequest endpoint'
                {| o_params := None;
                   o_data := Some (VObj [("transition", VObj [("id", id)])]);
                   o_method := Some POST |} ;;
         toName <~ getOpt availableTransition "to" "name" ;;
         line <~ template [#tick; #" Status changed to "; $(orElse toName transition); #nl] ;;
         ret (updateResult ++ line))
      (fun error =>
         ret (updateResult ++ cross ++ " Failed to change status: " ++ message error ++ nl))
  else ret updateResult.

(** The partial [fields] object, in the order the properties are set. *)
Definition updateFields (assignee summary description priority : value)
  : list (string * value) :=
  ((if truthy assignee then [("assignee", VObj [("emailAddress", assignee)])] else [])
   ++ (if truthy summary then [("summary", summary)] else [])
   ++ (if truthy description then [("description", description)] else [])
   ++ (if truthy priority then [("priority", VObj [("name", priority)])] else []))%list.

(** The field phase. *)
Definition changeFields (issueKey : value) (fields : list (string * value))
  (updateResult : string) : M string :=
  match fields with
  | [] => ret updateResult
  | _ =>
      tryCatch
        (endpoint <~ template [#"/issue/"; $issueKey] ;;
         _ <- makeJiraRequest endpoint
                {| o_params := None;
                   o_data := Some (VObj [("fields", VObj fields)]);
                   o_method := Some PUT |} ;;
         ret (updateResult ++ tick ++ " Updated fields: "
              ++ join ", " (map fst fields) ++ nl))
        (fun error =>
           ret (updateResult ++ cross ++ " Failed to update fields: " ++ message error ++ nl))
  end.

Definition updateIssue (args : value) : M Envelope :=
  issueKey <~ destructure args "issueKey" ;;
  transition <~ destructure args "transition" ;;
  assignee <~ destructure args "assignee" ;;
  summary <~ destructure args "summary" ;;
  description <~ destructure args "description" ;;
  priority <~ destructure args "priority" ;;
  afterStatus <- changeStatus issueKey transition EmptyString ;;
  updateResult <- changeFields issueKey
                    (updateFields assignee summary description priority) afterStatus ;;
  report <~ template
    [#"Update results for "; $issueKey; #":"; #nl; #nl;
     #(if isEmpty updateResult then "No updates requested" else updateResult)] ;;
  ret (textEnvelope report).

(** *** [createIssue] *)

(** [labels && labels.length > 0] *)
Definition hasLabels (labels : value) : result bool :=
  if truthy labels then
    rbind (get labels "length") (fun len =>
    rbind (toNumber len) (fun n => Ok (SFltb (S754_zero false) n)))
  else Ok false.

(** [labels.map(label => ({ name: label }))] *)
Definition labelObjects (labels : value) : result value :=
  match labels with
  | VArr l => Ok (VArr (map (fun label => VObj [("name", label)]) l))
  | _ => notAFunction "labels.map"
  end.

(** [labels.join(', ')] *)
Definition joinLabels (labels : value) : result string :=
  match labels with
  | VArr l => joinValues toString ", " l
  | _ => notAFunction "labels.join"
  end.

(** [v ? `...` : ''] *)
Definition whenSet (v : value) (parts : list (result string)) : result string :=
  if truthy v then template parts else Ok EmptyString.

Definition tipProject (projectKey : value) : result string :=
  template [#nl; #nl; #"Tip: Make sure the project key "; #dquote; $projectKey; #dquote;
            #" exists and you have permission to create issues in it."].
Definition tipIssueType (issueType : value) : result string :=
  template [#nl; #nl; #"Tip: Make sure the issue type "; #dquote; $issueType; #dquote;
            #" is valid for this project. Common types: Task, Bug, Story, Epic."].
Definition tipPriority (priority : value) : result string :=
  template [#nl; #nl; #"Tip: Make sure the priority "; #dquote; $priority; #dquote;
            #" is valid. Common priorities: Highest, High, Medium, Low, Lowest."].

(** The [fields] object of a creation request. *)
Definition createFields (projectKey summary description issueType priority
  assignee labels : value) : result (list (string * value)) :=
  let required :=
    [("project", VObj [("key", projectKey)]);
     ("summary", summary);
     ("issuetype", VObj [("name", issueType)])] in
  let withDescription :=
    (required ++ (if truthy description then [("description", description)] else []))%list in
  let withPriority :=
    (withDescription
     ++ (if truthy priority then [("priority", VObj [("name", priority)])] else []))%list in
  let withAssignee :=
    (withPriority
     ++ (if truthy assignee then [("assignee", VObj [("emailAddress", assignee)])] else []))%list in
  rbind (hasLabels labels) (fun some =>
  if some
  then rbind (labelObjects labels) (fun ls => Ok (withAssignee ++ [("labels", ls)])%list)
  else Ok withAssignee).

Definition createIssue (args : value) : M Envelope :=
  projectKey <~ destructure args "projectKey" ;;
  summary <~ destructure args "summary" ;;
  description <~ destructure args "description" ;;
  issueType0 <~ destructure args "issueType" ;;
  let issueType := match issueType0 with VUndefined => VStr "Task" | v => v end in
  priority <~ destructure args "priority" ;;
  assignee <~ destructure args "assignee" ;;
  labels <~ destructure args "labels" ;;
  fields <~ createFields projectKey summary description issueType priority assignee labels ;;
  tryCatch
    (resp <- makeJiraRequest "/issue"
               {| o_params := None;
                  o_data := Some (VObj [("fields", VObj fields)]);
                  o_method := Some POST |} ;;
     issueKey <~ get resp "key" ;;
     issueUrl <~ template [#(baseUrl config); #"/browse/"; $issueKey] ;;
     report <~ template
       [#tick; #" Successfully created issue: **"; $issueKey; #"**"; #nl; #nl;
        #"**Summary:** "; $summary; #nl;
        #"**Project:** "; $projectKey; #nl;
        #"**Issue Type:** "; $issueType; #nl;
        whenSet priority [#"**Priority:** "; $priority]; #nl;
        whenSet assignee [#"**Assignee:** "; $assignee]; #nl;
        rbind (hasLabels labels) (fun some =>
          if some then template [#"**Labels:** "; joinLabels labels]
          else Ok EmptyString); #nl; #nl;
        #"**URL:** "; #issueUrl; #nl; #nl;
        whenSet description [#"**Description:**"; #nl; $description]] ;;
     ret (textEnvelope report))
    (fun error =>
       let errorMessage := message error in
       tip1 <~ (if includes errorMessage "project" || includes errorMessage "Project"
                then tipProject projectKey else Ok EmptyString) ;;
       tip2 <~ (if includes errorMessage "issuetype" || includes errorMessage "Issue Type"
                then tipIssueType issueType else Ok EmptyString) ;;
       tip3 <~ (if includes errorMessage "priority"
                then tipPriority priority else Ok EmptyString) ;;
       let helpfulError := errorMessage ++ tip1 ++ tip2 ++ tip3 in
       ret (textEnvelope (cross ++ " Failed to create issue: " ++ helpfulError))).

(** *** The dispatcher *)

(** The [switch] on the tool name. *)
Definition dispatch (name : string) (args : value) : M Envelope :=
  if String.eqb name "jira_get_issue" then
    issueKey <~ optGet args "issueKey" ;;
    getIssue issueKey
  else if String.eqb name "jira_search_issues" then
    jql <~ optGet args "jql" ;;
    maxResults <~ optGet args "maxResults" ;;
    searchIssues jql (orElse maxResults (VNum fifty))
  else if String.eqb name "jira_get_issue_comments" then
    issueKey <~ optGet args "issueKey" ;;
    getIssueComments issueKey
  else if String.eqb name "jira_get_transitions" then
    issueKey <~ optGet args "issueKey" ;;
    getTransitions issueKey
  else if String.eqb name "jira_update_issue" then
    updateIssue args
  else if String.eqb name "jira_create_issue" then
    createIssue args
  else
    throw (JsError ("Unknown tool: " ++ name)).

(** The [CallToolRequestSchema] handler: the [switch] inside [try], every
    exception turned into a report. *)
Definition callTool (name : string) (args : value) : M Envelope :=
  tryCatch (dispatch name args)
    (fun error => ret (textEnvelope ("Error: " ++ message error))).


(** *** Requests and properties named in the statements *)

Definition searchRequest (jql maxResults : value) : AxiosConfig :=
  requestConfig "/search"
    {| o_params := Some (VObj
         [("jql", jql); ("maxResults", maxResults);
          ("fields", VStr "summary,status,assignee,priority,created,updated")]);
       o_data := None; o_method := None |}.

Definition issueRequest (key : string) : AxiosConfig :=
  requestConfig ("/issue/" ++ key)
    {| o_params := Some (VObj
         [("fields", VStr "summary,status,assignee,priority,created,updated,description,issuetype,reporter,parent");
          ("expand", VStr "renderedFields")]);
       o_data := None; o_method := None |}.

Definition transitionsRequest (key : string) : AxiosConfig :=
  requestConfig ("/issue/" ++ key ++ "/transitions") noOptions.

Definition submitRequest (key : string) (id : value) : AxiosConfig :=
  requestConfig ("/issue/" ++ key ++ "/transitions")
    {| o_params := None;
       o_data := Some (VObj [("transition", VObj [("id", id)])]);
       o_method := Some POST |}.

Definition createRequest (fields : list (string * value)) : AxiosConfig :=
  requestConfig "/issue"
    {| o_params := None;
       o_data := Some (VObj [("fields", VObj fields)]);
       o_method := Some POST |}.

(** A computation that issues no request, one that only adds requests,
    and one whose normal outcome is a single text block. *)
Definition silent {A} (m : M A) : Prop :=
  forall log, snd (m log) = log.
Definition growing {A} (m : M A) : Prop :=
  forall log, exists more, snd (m log) = (log ++ more)%list.
Definition reportsText (m : M Envelope) : Prop :=
  forall log env, fst (m log) = Ok env -> exists t, env = textEnvelope t.

(** The six names of the catalog. *)
Definition catalog : list string :=
  ["jira_get_issue"; "jira_search_issues"; "jira_get_issue_comments";
   "jira_get_transitions"; "jira_update_issue"; "jira_create_issue"].

(** A response of the issue endpoint that carries its [fields], with the
    description missing or [null] both rendered and raw. *)
Definition lacksDescription (resp : value) : bool :=
  reading (getOpt resp "renderedFields" "description") nullish
  && reading (getOpt resp "fields" "description") nullish.

(** The values the report prints are texts, numbers, [null] or missing. *)
Definition printsPlainly (resp : value) : bool :=
  reading (get resp "key") isScalar
  && reading (get resp "fields") (fun fields =>
       negb (nullish fields)
       && reading (get fields "summary") isScalar
       && reading (getOpt fields "status" "name") isScalar
       && reading (getOpt fields "assignee" "displayName") isScalar
       && reading (getOpt fields "priority" "name") isScalar
       && reading (get fields "created") isScalar
       && reading (get fields "updated") isScalar).

(** The answer lists no issue. *)
Definition noIssues (listed : value) : bool :=
  match listed with
  | VUndefined | VNull | VArr [] => true
  | _ => false
  end.

(** *** Further requests and properties named in the statements *)

Definition commentsRequest (key : string) : AxiosConfig :=
  requestConfig ("/issue/" ++ key ++ "/comment") noOptions.

Definition updateRequest (key : string) (fields : list (string * value)) : AxiosConfig :=
  requestConfig ("/issue/" ++ key)
    {| o_params := None;
       o_data := Some (VObj [("fields", VObj fields)]);
       o_method := Some PUT |}.

(** What every request of the server has in common: the address under
    the REST root, the two fixed headers, and the content type exactly
    when the method is not [GET]. *)
Definition wellFormedRequest (c : AxiosConfig) : Prop :=
  (exists endpoint,
     url c = baseUrl config ++ "/rest/api/3" ++ endpoint
     /\ prefix "/" endpoint = true)
  /\ In ("Authorization", "Basic " ++ base64 (email config ++ ":" ++ apiToken config))
       (headers c)
  /\ In ("Accept", "application/json") (headers c)
  /\ (In ("Content-Type", "application/json") (headers c) <-> method c <> GET).

(** The tools that only read. *)
Definition readingTools : list string :=
  ["jira_get_issue"; "jira_search_issues"; "jira_get_issue_comments";
   "jira_get_transitions"].

(** [issueType = "Task"] in the parameter pattern of [createIssue]: the
    default stands in for [undefined] only. *)
Definition issueTypeOrDefault (given : value) : value :=
  match given with VUndefined => VStr "Task" | _ => given end.

(** An optional textual argument: absent or a text. *)
Definition optText (o : option string) : value :=
  match o with Some t => VStr t | None => VUndefined end.

(** It counts as supplied when it is a non-empty text. *)
Definition supplied (o : option string) : bool :=
  match o with Some t => negb (isEmpty t) | None => false end.

(** The line a report devotes to an optional argument. *)
Definition optLine (label : string) (o : option string) : string :=
  match o with
  | Some t => if isEmpty t then EmptyString else label ++ t
  | None => EmptyString
  end.

(** The [fields] object Create Issue builds from textual arguments. *)
Definition expectedFields (pk s : string) (d it pr a : option string) (ls : list string)
  : list (string * value) :=
  ([("project", VObj [("key", VStr pk)]);
    ("summary", VStr s);
    ("issuetype", VObj [("name", issueTypeOrDefault (optText it))])]
   ++ (if supplied d then [("description", optText d)] else [])
   ++ (if supplied pr then [("priority", VObj [("name", optText pr)])] else [])
   ++ (if supplied a then [("assignee", VObj [("emailAddress", optText a)])] else [])
   ++ match ls with
      | [] => []
      | _ => [("labels", VArr (map (fun l => VObj [("name", VStr l)]) ls))]
      end)%list.

(** The report of an accepted creation. *)
Definition createdReport (k pk s : string) (d it pr a : option string) (ls : list string)
  : string :=
  tick ++ " Successfully created issue: **" ++ k ++ "**" ++ nl ++ nl
  ++ "**Summary:** " ++ s ++ nl
  ++ "**Project:** " ++ pk ++ nl
  ++ "**Issue Type:** " ++ match it with Some t => t | None => "Task" end ++ nl
  ++ optLine "**Priority:** " pr ++ nl
  ++ optLine "**Assignee:** " a ++ nl
  ++ match ls with [] => EmptyString | _ => "**Labels:** " ++ join ", " ls end ++ nl ++ nl
  ++ "**URL:** " ++ baseUrl config ++ "/browse/" ++ k ++ nl ++ nl
  ++ optLine ("**Description:**" ++ nl) d.

(** Rows of the remote lists, with textual entries, and the objects and
    report blocks that stand for them. *)
Record TransitionRow : Type := {
  tr_id : string; tr_name : string; tr_to : string
}.

Definition transitionValue (t : TransitionRow) : value :=
  VObj [("id", VStr (tr_id t)); ("name", VStr (tr_name t));
        ("to", VObj [("name", VStr (tr_to t))])].

Definition transitionText (t : TransitionRow) : string :=
  "**" ++ tr_name t ++ "** (ID: " ++ tr_id t ++ ") -> " ++ tr_to t.

Record IssueRow : Type := {
  row_key : string; row_summary : string; row_status : string;
  row_assignee : option string; row_priority : string
}.

Definition issueValue (i : IssueRow) : value :=
  VObj [("key", VStr (row_key i));
        ("fields",
         VObj [("summary", VStr (row_summary i));
               ("status", VObj [("name", VStr (row_status i))]);
               ("assignee",
                match row_assignee i with
                | Some n => VObj [("displayName", VStr n)]
                | None => VNull
                end);
               ("priority", VObj [("name", VStr (row_priority i))])])].

Definition issueText (i : IssueRow) : string :=
  "**" ++ row_key i ++ "**: " ++ row_summary i ++ nl
  ++ "- Status: " ++ row_status i ++ nl
  ++ "- Assignee: "
  ++ match row_assignee i with
     | Some n => if isEmpty n then "Unassigned" else n
     | None => "Unassigned"
     end ++ nl
  ++ "- Priority: " ++ row_priority i ++ nl
  ++ "- URL: " ++ baseUrl config ++ "/browse/" ++ row_key i.

Record CommentRow : Type := {
  cm_author : string; cm_created : string;
  cm_rendered : option string; cm_body : string
}.

Definition commentValue (c : CommentRow) : value :=
  VObj [("author", VObj [("displayName", VStr (cm_author c))]);
        ("created", VStr (cm_created c));
        ("renderedBody", optText (cm_rendered c));
        ("body", VStr (cm_body c))].

Definition commentText (c : CommentRow) : string :=
  "**" ++ cm_author c ++ "** (" ++ toLocaleDateString (VStr (cm_created c)) ++ "):" ++ nl
  ++ match cm_rendered c with
     | Some r => if isEmpty r then cm_body c else r
     | None => cm_body c
     end.

(** A remote list property: the rows, or nothing at all. *)
Definition listOf {A} (encode : A -> value) (rows : list A) (listed : value) : Prop :=
  listed = VArr (map encode rows) \/ (nullish listed = true /\ rows = []).


(** *** The tool list *)

(** One entry of [properties] in an input schema. *)
Record PropertySchema : Type := {
  ps_type : string;
  ps_description : string;
  ps_default : option value;
  ps_items : option string
}.

Record InputSchema : Type := {
  is_type : string;
  is_properties : list (string * PropertySchema);
  is_required : list string
}.

Record Tool : Type := {
  tool_name : string;
  tool_description : string;
  inputSchema : InputSchema
}.

Definition textProperty (description : string) : PropertySchema :=
  {| ps_type := "string"; ps_description := description;
     ps_default := None; ps_items := None |}.

Definition issueKeyProperty : string * PropertySchema :=
  ("issueKey", textProperty "The Jira issue key (e.g., PROJECT-123)").

(** The answer of the [ListToolsRequestSchema] handler. *)
Definition listTools : list Tool :=
  [ {| tool_name := "jira_get_issue";
       tool_description := "Get a specific Jira issue by key (e.g., PROJECT-123)";
       inputSchema :=
         {| is_type := "object";
            is_properties := [issueKeyProperty];
            is_required := ["issueKey"] |} |};
    {| tool_name := "jira_search_issues";
       tool_description := "Search for Jira issues using JQL";
       inputSchema :=
         {| is_type := "object";
            is_properties :=
              [("jql", textProperty "JQL query to search for issues");
               ("maxResults",
                {| ps_type := "number";
                   ps_description := "Maximum number of results (default: 50)";
                   ps_default := Some (VNum fifty); ps_items := None |})];
            is_required := ["jql"] |} |};
    {| tool_name := "jira_get_issue_comments";
       tool_description := "Get comments for a specific Jira issue";
       inputSchema :=
         {| is_type := "object";
            is_properties := [issueKeyProperty];
            is_required := ["issueKey"] |} |};
    {| tool_name := "jira_get_transitions";
       tool_description := "Get available status transitions for a Jira issue";
       inputSchema :=
         {| is_type := "object";
            is_properties := [issueKeyProperty];
            is_required := ["issueKey"] |} |};
    {| tool_name := "jira_update_issue";
       tool_description := "Update a Jira issue (change status, assignee, etc.)";
       inputSchema :=
         {| is_type := "object";
            is_properties :=
              [issueKeyProperty;
               ("transition",
                textProperty "Status transition name or ID (use jira_get_transitions to see available options)");
               ("assignee", textProperty "Assignee email or account ID (optional)");
               ("summary", textProperty "Updated summary (optional)");
               ("description", textProperty "Updated description (optional)");
               ("priority",
                textProperty "Priority name (e.g., High, Medium, Low) (optional)")];
            is_required := ["issueKey"] |} |};
    {| tool_name := "jira_create_issue";
       tool_description := "Create a new Jira issue";
       inputSchema :=
         {| is_type := "object";
            is_properties :=
              [("projectKey",
                textProperty "The project key where the issue will be created (e.g., PROJ)");
               ("summary", textProperty "Issue summary/title");
               ("description", textProperty "Issue description (optional)");
               ("issueType",
                {| ps_type := "string";
                   ps_description := "Issue type (e.g., Bug, Story, Task) - defaults to Task";
                   ps_default := Some (VStr "Task"); ps_items := None |});
               ("priority",
                textProperty "Priority name (e.g., High, Medium, Low) (optional)");
               ("assignee", textProperty "Assignee email or account ID (optional)");
               ("labels",
                {| ps_type := "array";
                   ps_description := "Array of labels to add to the issue (optional)";
                   ps_default := None; ps_items := Some "string" |})];
            is_required := ["projectKey"; "summary"] |} |} ].

(** The default the tool list advertises for an argument of a tool. *)
Definition advertisedDefault (tool arg : string) : option value :=
  match List.find (fun t => String.eqb (tool_name t) tool) listTools with
  | Some t =>
      match List.find (fun p => String.eqb (fst p) arg) (is_properties (inputSchema t)) with
      | Some p => ps_default (snd p)
      | None => None
      end
  | None => None
  end.

(** ** Facts *)

(** *** Strings *)

Lemma append_nil_r (s : string) : s ++ EmptyString = s.
Proof. induction s; simpl; congruence. Qed.

Lemma append_assoc (a b c : string) : (a ++ b) ++ c = a ++ (b ++ c).
Proof. induction a; simpl; congruence. Qed.

(** *** The monad *)

Lemma bind_lift_ok {A B} (a : A) (f : A -> M B) :
  bind (lift (Ok a)) f = f a.
Proof. reflexivity. Qed.

Lemma makeJiraRequest_run endpoint options log :
  makeJiraRequest endpoint options log
  = (remote log (requestConfig endpoint options),
     (log ++ [requestConfig endpoint options])%list).
Proof. reflexivity. Qed.

Lemma silent_ret {A} (a : A) : silent (ret a).
Proof. intro; reflexivity. Qed.

Lemma silent_throw {A} (e : exn) : silent (@throw A e).
Proof. intro; reflexivity. Qed.

Lemma silent_lift {A} (r : result A) : silent (lift r).
Proof. intro; reflexivity. Qed.

Lemma silent_bind {A B} (m : M A) (f : A -> M B) :
  silent m -> (forall a, silent (f a)) -> silent (bind m f).
Proof.
  intros Hm Hf log. unfold bind. specialize (Hm log).
  destruct (m log) as [[a|e] log']; simpl in *; subst; [apply Hf | reflexivity].
Qed.

Lemma silent_tryCatch {A} (m : M A) (h : exn -> M A) :
  silent m -> (forall e, silent (h e)) -> silent (tryCatch m h).
Proof.
  intros Hm Hh log. unfold tryCatch. specialize (Hm log).
  destruct (m log) as [[a|e] log']; simpl in *; subst; [reflexivity | apply Hh].
Qed.

Ltac silence :=
  repeat first
    [ apply silent_ret | apply silent_throw | apply silent_lift
    | apply silent_bind; [| intro]
    | apply silent_tryCatch; [| intro]
    | match goal with
      | |- silent (if ?b then _ else _) => destruct b
      | |- silent (match ?x with _ => _ end) => destruct x
      end ].

Lemma bind_run {A B} (m : M A) (f : A -> M B) log a log' :
  m log = (Ok a, log') -> bind m f log = f a log'.
Proof. intros H. unfold bind. now rewrite H. Qed.

Lemma snd_tryCatch_silent {A} (m : M A) (h : exn -> M A) log :
  (forall e, silent (h e)) -> snd (tryCatch m h log) = snd (m log).
Proof.
  intros Hh. unfold tryCatch.
  destruct (m log) as [[a|e] log']; simpl; [reflexivity | apply Hh].
Qed.

Lemma snd_request_then_silent {A} endpoint options (f : value -> M A) log :
  (forall a, silent (f a)) ->
  snd (bind (makeJiraRequest endpoint options) f log)
  = (log ++ [requestConfig endpoint options])%list.
Proof.
  intros Hf. unfold bind. rewrite makeJiraRequest_run.
  destruct (remote log _) as [resp|e]; [apply Hf | reflexivity].
Qed.

Lemma dispatch_get_issue args :
  dispatch "jira_get_issue" args
  = (issueKey <~ optGet args "issueKey" ;; getIssue issueKey).
Proof. reflexivity. Qed.

Lemma dispatch_search args :
  dispatch "jira_search_issues" args
  = (jql <~ optGet args "jql" ;;
     maxResults <~ optGet args "maxResults" ;;
     searchIssues jql (orElse maxResults (VNum fifty))).
Proof. reflexivity. Qed.

Lemma dispatch_update args : dispatch "jira_update_issue" args = updateIssue args.
Proof. reflexivity. Qed.

Lemma dispatch_create args : dispatch "jira_create_issue" args = createIssue args.
Proof. reflexivity. Qed.


(** *** Values *)

Lemma unsupplied_falsy v : unsupplied v = true -> truthy v = false.
Proof. destruct v as [| | | | [|c s] | |]; simpl; congruence. Qed.

Lemma reading_inv r P : reading r P = true -> exists v, r = Ok v /\ P v = true.
Proof. destruct r; simpl; [eauto | discriminate]. Qed.

Lemma get_defined v p x : get v p = Ok x -> nullish v = false.
Proof. destruct v; simpl; congruence. Qed.

Lemma get_total v p : nullish v = false -> exists x, get v p = Ok x.
Proof. destruct v; simpl; try discriminate; eauto. Qed.

(** *** Create Issue *)

(** C6.  Called with only [projectKey] and [summary], Create Issue sends
    exactly one request, the creation request, and the [fields] of its
    body are [project.key], [summary] and [issuetype.name = "Task"],
    nothing else; this holds whatever the remote answers. *)
Theorem create_with_required_only (args projectKey summary : value)
  (log : list AxiosConfig) :
  get args "projectKey" = Ok projectKey ->
  get args "summary" = Ok summary ->
  Forall (fun p => get args p = Ok VUndefined)
    ["description"; "issueType"; "priority"; "assignee"; "labels"] ->
  let fields :=
    [("project", VObj [("key", projectKey)]);
     ("summary", summary);
     ("issuetype", VObj [("name", VStr "Task")])] in
  snd (callTool "jira_create_issue" args log) = (log ++ [createRequest fields])%list
  /\ method (createRequest fields) = POST
  /\ data (createRequest fields) = Some (VObj [("fields", VObj fields)]).
Proof.
  intros Hpk Hsum Hall fields.
  assert (Hnn : nullish args = false) by (eapply get_defined; eauto).
  repeat match goal with
  | H : Forall _ (_ :: _) |- _ => inversion H; subst; clear H
  end.
  split; [| split; reflexivity].
  unfold callTool. rewrite snd_tryCatch_silent by (intro; apply silent_ret).
  rewrite dispatch_create.
  unfold createIssue, destructure. rewrite Hnn.
  repeat match goal with H : get args _ = Ok _ |- _ => rewrite H; clear H end.
  rewrite !bind_lift_ok. cbv beta iota zeta.
  change (createFields projectKey summary VUndefined (VStr "Task")
            VUndefined VUndefined VUndefined) with (Ok fields).
  rewrite bind_lift_ok.
  rewrite snd_tryCatch_silent by (intro; silence).
  apply snd_request_then_silent. intro; silence.
Qed.

(** *** Update Issue without values *)

Lemma bind_ret {A B} (a : A) (f : A -> M B) : bind (ret a) f = f a.
Proof. reflexivity. Qed.

Lemma tryCatch_ret {A} (a : A) (h : exn -> M A) : tryCatch (ret a) h = ret a.
Proof. reflexivity. Qed.

(** C10.  Called with an issue key and every optional argument absent or
    the empty string, Update Issue sends no request at all and its report
    ends with "No updates requested". *)
Theorem update_without_values (args : value) (key : string) (log : list AxiosConfig) :
  get args "issueKey" = Ok (VStr key) ->
  Forall (fun p => reading (get args p) unsupplied = true)
    ["transition"; "assignee"; "summary"; "description"; "priority"] ->
  callTool "jira_update_issue" args log
  = (Ok (textEnvelope ("Update results for " ++ key ++ ":" ++ nl ++ nl
                       ++ "No updates requested")), log).
Proof.
  intros Hkey Hall.
  assert (Hnn : nullish args = false) by (eapply get_defined; eauto).
  repeat match goal with
  | H : Forall _ (_ :: _) |- _ => inversion H; subst; clear H
  end.
  repeat match goal with
  | H : reading _ _ = true |- _ =>
      apply reading_inv in H; destruct H as (? & ? & ?%unsupplied_falsy)
  end.
  unfold callTool. rewrite dispatch_update.
  unfold updateIssue, destructure. rewrite Hnn.
  repeat match goal with H : get args _ = Ok _ |- _ => rewrite H; clear H end.
  rewrite !bind_lift_ok.
  unfold changeStatus, updateFields.
  repeat match goal with H : truthy _ = false |- _ => rewrite H; clear H end.
  rewrite bind_ret. cbn [app changeFields]. rewrite bind_ret.
  cbn [template rbind toString isEmpty]. rewrite bind_lift_ok, tryCatch_ret.
  rewrite !append_nil_r. reflexivity.
Qed.

(** *** Search Issues *)

Lemma optGet_argument args p : optGet args p = Ok (argument args p).
Proof. unfold argument, optGet. destruct args; reflexivity. Qed.

Lemma searchIssues_request jql maxResults log :
  snd (searchIssues jql maxResults log) = (log ++ [searchRequest jql maxResults])%list.
Proof.
  unfold searchIssues. apply snd_request_then_silent. intro; silence.
Qed.

(** C9.  The search request carries [maxResults || 50]: a falsy value,
    zero included, is replaced by 50, and the value sent is never the
    number zero. *)
Theorem search_never_asks_for_zero (args : value) (log : list AxiosConfig) :
  let given := argument args "maxResults" in
  let sent := orElse given (VNum fifty) in
  snd (callTool "jira_search_issues" args log)
  = (log ++ [searchRequest (argument args "jql") sent])%list
  /\ params (searchRequest (argument args "jql") sent)
     = Some (VObj [("jql", argument args "jql"); ("maxResults", sent);
                   ("fields", VStr "summary,status,assignee,priority,created,updated")])
  /\ (truthy given = false -> sent = VNum fifty)
  /\ (forall sign, sent <> VNum (S754_zero sign))
  /\ fifty = numOfNat 50.
Proof.
  intros given sent.
  split; [| split; [| split; [| split]]].
  - unfold callTool. rewrite snd_tryCatch_silent by (intro; apply silent_ret).
    rewrite dispatch_search, !optGet_argument, !bind_lift_ok.
    apply searchIssues_request.
  - reflexivity.
  - intros Hfalsy. unfold sent, orElse. now rewrite Hfalsy.
  - intros sign. unfold sent, orElse.
    destruct (truthy given) eqn:Ht; [| discriminate].
    intros Heq. rewrite Heq in Ht. discriminate.
  - reflexivity.
Qed.

(** C7.  When the remote answers a search with no issue (an empty or a
    missing list), Search Issues returns the report "Found 0 issues:"
    followed by the blank line and nothing else; it is not an error. *)
Theorem search_without_matches (args resp : value) (log : list AxiosConfig) :
  let request :=
    searchRequest (argument args "jql")
      (orElse (argument args "maxResults") (VNum fifty)) in
  remote log request = Ok resp ->
  reading (get resp "issues") noIssues = true ->
  callTool "jira_search_issues" args log
  = (Ok (textEnvelope ("Found 0 issues:" ++ nl ++ nl)), (log ++ [request])%list).
Proof.
  intros request Hresp Hnone.
  apply reading_inv in Hnone. destruct Hnone as (listed & Hlisted & Hnone).
  unfold callTool.
  rewrite dispatch_search, !optGet_argument, !bind_lift_ok.
  unfold searchIssues.
  unfold tryCatch.
  erewrite bind_run by (rewrite makeJiraRequest_run; fold (searchRequest (argument args "jql")
      (orElse (argument args "maxResults") (VNum fifty))); fold request;
      rewrite Hresp; reflexivity).
  rewrite Hlisted, bind_lift_ok.
  assert (Hmap : optMap "data.issues" issueSummary listed = Ok []).
  { destruct listed as [| | | | | [|x l] |]; try discriminate; reflexivity. }
  rewrite Hmap, bind_lift_ok. reflexivity.
Qed.

(** *** Transition resolution *)

Lemma transitionMatches_named wanted t :
  namedTransition t = true ->
  transitionMatches (VStr wanted) t = Ok (resolves toLowerCase wanted t).
Proof.
  unfold namedTransition, resolves, nameOf, idOf.
  destruct t as [| | | | | |props]; try discriminate.
  unfold transitionMatches, get.
  destruct (lookup "name" props) as [[| | | |n| |]|]; try discriminate.
  intros _. cbn [rbind callToLowerCase].
  destruct (String.eqb (toLowerCase n) (toLowerCase wanted)); reflexivity.
Qed.

Lemma resolves_named wanted t : resolves toLowerCase wanted t = true -> namedTransition t = true.
Proof.
  unfold resolves, namedTransition. destruct (nameOf t); [reflexivity | discriminate].
Qed.

Lemma find_unresolved wanted ts :
  Forall (fun u => namedTransition u = true /\ resolves toLowerCase wanted u = false) ts ->
  find (transitionMatches (VStr wanted)) ts = Ok VUndefined.
Proof.
  induction 1 as [| u ts [Hnamed Hno] _ IH]; [reflexivity |].
  cbn [find]. rewrite (transitionMatches_named _ _ Hnamed), Hno. exact IH.
Qed.

Lemma find_first wanted before t after :
  Forall (fun u => namedTransition u = true /\ resolves toLowerCase wanted u = false) before ->
  resolves toLowerCase wanted t = true ->
  find (transitionMatches (VStr wanted)) (before ++ t :: after) = Ok t.
Proof.
  intros Hbefore Ht.
  induction Hbefore as [| u ts [Hnamed Hno] _ IH]; cbn [find app].
  - rewrite (transitionMatches_named _ _ (resolves_named _ _ Ht)), Ht. reflexivity.
  - rewrite (transitionMatches_named _ _ Hnamed), Hno. exact IH.
Qed.

Lemma truthy_text s : s <> EmptyString -> truthy (VStr s) = true.
Proof. destruct s; [congruence | reflexivity]. Qed.

Lemma tryCatch_run {A} (m : M A) (h : exn -> M A) log a log' :
  m log = (Ok a, log') -> tryCatch m h log = (Ok a, log').
Proof. intros H. unfold tryCatch. now rewrite H. Qed.

Lemma tryCatch_run_throw {A} (m : M A) (h : exn -> M A) log e log' :
  m log = (Throw e, log') -> tryCatch m h log = h e log'.
Proof. intros H. unfold tryCatch. now rewrite H. Qed.

Lemma transitions_endpoint key :
  template [#"/issue/"; $(VStr key); #"/transitions"]
  = Ok ("/issue/" ++ key ++ "/transitions").
Proof. cbn [template rbind toString]. now rewrite append_nil_r. Qed.

Lemma changeStatus_not_found key wanted ts resp log :
  wanted <> EmptyString ->
  remote log (transitionsRequest key) = Ok resp ->
  get resp "transitions" = Ok (VArr ts) ->
  Forall (fun u => namedTransition u = true /\ resolves toLowerCase wanted u = false) ts ->
  changeStatus (VStr key) (VStr wanted) EmptyString log
  = (Ok (cross ++ " Failed to change status: Transition " ++ dquote ++ wanted ++ dquote
         ++ " not found. Use jira_get_transitions to see available options." ++ nl),
     (log ++ [transitionsRequest key])%list).
Proof.
  intros Hwanted Hresp Hlisted Hnone.
  unfold changeStatus. rewrite (truthy_text _ Hwanted).
  erewrite tryCatch_run_throw.
  2:{ rewrite transitions_endpoint, bind_lift_ok.
      erewrite bind_run by (rewrite makeJiraRequest_run; fold (transitionsRequest key);
                            rewrite Hresp; reflexivity).
      rewrite Hlisted, bind_lift_ok.
      unfold findTransition. cbn [nullish].
      rewrite (find_unresolved _ _ Hnone), bind_lift_ok.
      cbn [truthy negb template rbind toString].
      rewrite bind_lift_ok. reflexivity. }
  unfold ret. cbn [message]. rewrite ?append_nil_r, ?append_assoc. reflexivity.
Qed.

(** C4.  Update Issue with only a transition that the remote list does
    not offer (no listed name is the requested text once the platform's
    [toLowerCase] has lowered both, and no listed id is that text): the
    report carries the transition-not-found line, the only request sent is
    the one that fetched the transitions, and the call returns its report
    normally.  This holds whatever the platform's lowering is. *)
Theorem transition_not_found (args resp : value) (key wanted : string)
  (ts : list value) (log : list AxiosConfig) :
  get args "issueKey" = Ok (VStr key) ->
  get args "transition" = Ok (VStr wanted) ->
  wanted <> EmptyString ->
  Forall (fun p => reading (get args p) unsupplied = true)
    ["assignee"; "summary"; "description"; "priority"] ->
  remote log (transitionsRequest key) = Ok resp ->
  get resp "transitions" = Ok (VArr ts) ->
  Forall (fun u => namedTransition u = true /\ resolves toLowerCase wanted u = false) ts ->
  callTool "jira_update_issue" args log
  = (Ok (textEnvelope
           ("Update results for " ++ key ++ ":" ++ nl ++ nl
            ++ cross ++ " Failed to change status: Transition "
            ++ dquote ++ wanted ++ dquote
            ++ " not found. Use jira_get_transitions to see available options." ++ nl)),
     (log ++ [transitionsRequest key])%list)
  /\ method (transitionsRequest key) = GET.
Proof.
  intros Hkey Htr Hwanted Hall Hresp Hlisted Hnone.
  assert (Hnn : nullish args = false) by (eapply get_defined; eauto).
  repeat match goal with
  | H : Forall _ (_ :: _) |- _ => inversion H; subst; clear H
  end.
  repeat match goal with
  | H : reading _ _ = true |- _ =>
      apply reading_inv in H; destruct H as (? & ? & ?%unsupplied_falsy)
  end.
  split; [| reflexivity].
  unfold callTool. rewrite dispatch_update.
  unfold updateIssue, destructure. rewrite Hnn.
  repeat match goal with H : get args _ = Ok _ |- _ => rewrite H; clear H end.
  rewrite !bind_lift_ok.
  erewrite tryCatch_run; [reflexivity |].
  erewrite bind_run by (eapply changeStatus_not_found; eauto).
  unfold updateFields.
  repeat match goal with H : truthy _ = false |- _ => rewrite H; clear H end.
  cbn [app changeFields]. rewrite bind_ret.
  cbn [template rbind toString]. rewrite bind_lift_ok.
  unfold ret. rewrite ?append_nil_r, ?append_assoc. reflexivity.
Qed.

Lemma growing_silent {A} (m : M A) : silent m -> growing m.
Proof. intros H log. exists []. now rewrite H, app_nil_r. Qed.

Lemma growing_request endpoint options : growing (makeJiraRequest endpoint options).
Proof. intro log. rewrite makeJiraRequest_run. eexists. reflexivity. Qed.

Lemma growing_bind {A B} (m : M A) (f : A -> M B) :
  growing m -> (forall a, growing (f a)) -> growing (bind m f).
Proof.
  intros Hm Hf log. unfold bind. destruct (Hm log) as [more Hmore].
  destruct (m log) as [[a|e] log']; simpl in *; subst.
  - destruct (Hf a (log ++ more)%list) as [more' ->].
    exists (more ++ more')%list. now rewrite app_assoc.
  - eexists. reflexivity.
Qed.

Lemma growing_tryCatch {A} (m : M A) (h : exn -> M A) :
  growing m -> (forall e, growing (h e)) -> growing (tryCatch m h).
Proof.
  intros Hm Hh log. unfold tryCatch. destruct (Hm log) as [more Hmore].
  destruct (m log) as [[a|e] log']; simpl in *; subst.
  - eexists. reflexivity.
  - destruct (Hh e (log ++ more)%list) as [more' ->].
    exists (more ++ more')%list. now rewrite app_assoc.
Qed.

Ltac grow :=
  repeat first
    [ apply growing_request
    | apply growing_silent; solve [silence]
    | apply growing_bind; [| intro]
    | apply growing_tryCatch; [| intro]
    | match goal with
      | |- growing (if ?b then _ else _) => destruct b
      | |- growing (match ?x with _ => _ end) => destruct x
      end ].

Lemma snd_bind_growing {A B} (m : M A) (f : A -> M B) log log1 :
  snd (m log) = log1 -> (forall a, growing (f a)) ->
  exists more, snd (bind m f log) = (log1 ++ more)%list.
Proof.
  intros Hm Hf. unfold bind.
  destruct (m log) as [[a|e] log']; simpl in *; subst.
  - apply Hf.
  - exists []. now rewrite app_nil_r.
Qed.

Lemma growing_changeFields issueKey fields updateResult :
  growing (changeFields issueKey fields updateResult).
Proof. unfold changeFields. grow. Qed.

Lemma get_id_named t : namedTransition t = true -> get t "id" = Ok (idOf t).
Proof.
  unfold namedTransition, nameOf. destruct t; try discriminate. reflexivity.
Qed.

Lemma truthy_named t : namedTransition t = true -> truthy t = true.
Proof.
  unfold namedTransition, nameOf. destruct t; try discriminate. reflexivity.
Qed.

Lemma changeStatus_resolved_requests key wanted before t after resp log :
  wanted <> EmptyString ->
  remote log (transitionsRequest key) = Ok resp ->
  get resp "transitions" = Ok (VArr (before ++ t :: after)) ->
  Forall (fun u => namedTransition u = true /\ resolves toLowerCase wanted u = false) before ->
  resolves toLowerCase wanted t = true ->
  snd (changeStatus (VStr key) (VStr wanted) EmptyString log)
  = (log ++ [transitionsRequest key; submitRequest key (idOf t)])%list.
Proof.
  intros Hwanted Hresp Hlisted Hbefore Ht.
  pose proof (resolves_named _ _ Ht) as Hnamed.
  unfold changeStatus. rewrite (truthy_text _ Hwanted).
  rewrite snd_tryCatch_silent by (intro; silence).
  rewrite transitions_endpoint, bind_lift_ok.
  erewrite bind_run by (rewrite makeJiraRequest_run; fold (transitionsRequest key);
                        rewrite Hresp; reflexivity).
  rewrite Hlisted, bind_lift_ok.
  unfold findTransition. cbn [nullish].
  rewrite (find_first _ _ _ _ Hbefore Ht), bind_lift_ok.
  rewrite (truthy_named _ Hnamed). cbn [negb].
  rewrite bind_lift_ok, (get_id_named _ Hnamed), bind_lift_ok.
  rewrite snd_request_then_silent by (intro; silence).
  fold (submitRequest key (idOf t)).
  now rewrite <- app_assoc.
Qed.

Lemma changeStatus_resolved_line key wanted before t after resp answer dest s log :
  wanted <> EmptyString ->
  remote log (transitionsRequest key) = Ok resp ->
  get resp "transitions" = Ok (VArr (before ++ t :: after)) ->
  Forall (fun u => namedTransition u = true /\ resolves toLowerCase wanted u = false) before ->
  resolves toLowerCase wanted t = true ->
  remote (log ++ [transitionsRequest key])%list (submitRequest key (idOf t)) = Ok answer ->
  getOpt t "to" "name" = Ok dest ->
  toString (orElse dest (VStr wanted)) = Ok s ->
  fst (changeStatus (VStr key) (VStr wanted) EmptyString log)
  = Ok (tick ++ " Status changed to " ++ s ++ nl).
Proof.
  intros Hwanted Hresp Hlisted Hbefore Ht Hanswer Hdest Hs.
  pose proof (resolves_named _ _ Ht) as Hnamed.
  unfold changeStatus. rewrite (truthy_text _ Hwanted).
  erewrite tryCatch_run; [reflexivity |].
  rewrite transitions_endpoint, bind_lift_ok.
  erewrite bind_run by (rewrite makeJiraRequest_run; fold (transitionsRequest key);
                        rewrite Hresp; reflexivity).
  rewrite Hlisted, bind_lift_ok.
  unfold findTransition. cbn [nullish].
  rewrite (find_first _ _ _ _ Hbefore Ht), bind_lift_ok.
  rewrite (truthy_named _ Hnamed). cbn [negb].
  rewrite bind_lift_ok, (get_id_named _ Hnamed), bind_lift_ok.
  erewrite bind_run by (rewrite makeJiraRequest_run; fold (submitRequest key (idOf t));
                        rewrite Hanswer; reflexivity).
  rewrite Hdest, bind_lift_ok.
  cbn [template rbind]. rewrite Hs. cbn [rbind]. rewrite bind_lift_ok.
  unfold ret. rewrite ?append_nil_r, ?append_assoc. reflexivity.
Qed.

(** C5.  A requested transition resolves to the first listed transition
    whose name equals it up to letter case (the platform's [toLowerCase]
    sends both to the same text) or whose id is that very text; Update
    Issue then fetches the list and submits that transition's id.  When the
    remote accepts, the status line reports the change.  This holds
    whatever the platform's lowering is. *)
Theorem transition_resolution (args resp : value) (key wanted : string)
  (before after : list value) (t : value) (log : list AxiosConfig) :
  get args "issueKey" = Ok (VStr key) ->
  get args "transition" = Ok (VStr wanted) ->
  wanted <> EmptyString ->
  remote log (transitionsRequest key) = Ok resp ->
  get resp "transitions" = Ok (VArr (before ++ t :: after)) ->
  Forall (fun u => namedTransition u = true /\ resolves toLowerCase wanted u = false) before ->
  resolves toLowerCase wanted t = true ->
  findTransition (VStr wanted) (VArr (before ++ t :: after)) = Ok t
  /\ (exists more,
        snd (callTool "jira_update_issue" args log)
        = (log ++ transitionsRequest key :: submitRequest key (idOf t) :: more)%list)
  /\ method (submitRequest key (idOf t)) = POST
  /\ data (submitRequest key (idOf t))
     = Some (VObj [("transition", VObj [("id", idOf t)])])
  /\ (forall answer dest s,
        remote (log ++ [transitionsRequest key])%list (submitRequest key (idOf t))
        = Ok answer ->
        getOpt t "to" "name" = Ok dest ->
        toString (orElse dest (VStr wanted)) = Ok s ->
        fst (changeStatus (VStr key) (VStr wanted) EmptyString log)
        = Ok (tick ++ " Status changed to " ++ s ++ nl)).
Proof.
  intros Hkey Htr Hwanted Hresp Hlisted Hbefore Ht.
  assert (Hnn : nullish args = false) by (eapply get_defined; eauto).
  split; [| split; [| split; [| split]]]; try reflexivity.
  - unfold findTransition. cbn [nullish]. now apply find_first.
  - unfold callTool. rewrite snd_tryCatch_silent by (intro; apply silent_ret).
    rewrite dispatch_update. unfold updateIssue, destructure. rewrite Hnn, Hkey, Htr.
    destruct (get_total args "assignee" Hnn) as [assignee ->].
    destruct (get_total args "summary" Hnn) as [summary ->].
    destruct (get_total args "description" Hnn) as [description ->].
    destruct (get_total args "priority" Hnn) as [priority ->].
    rewrite !bind_lift_ok.
    match goal with
    | |- exists more, snd (bind ?m ?f log) = _ =>
        destruct (snd_bind_growing m f log
                    (log ++ [transitionsRequest key; submitRequest key (idOf t)])%list)
          as [more Hmore]
    end.
    + eapply changeStatus_resolved_requests; eauto.
    + intro a. apply growing_bind; [apply growing_changeFields | intro].
      apply growing_silent. silence.
    + rewrite Hmore. exists more. now rewrite <- app_assoc.
  - intros answer dest s Hanswer Hdest Hs.
    eapply changeStatus_resolved_line; eauto.
Qed.

(** *** Get Issue *)

Lemma nullish_falsy v : nullish v = true -> truthy v = false.
Proof. destruct v; simpl; congruence. Qed.

Lemma extract_falsy d : truthy d = false -> extractAcceptanceCriteria d = Ok [].
Proof. intros H. unfold extractAcceptanceCriteria. now rewrite H. Qed.

Lemma toString_scalar v : isScalar v = true -> exists s, toString v = Ok s.
Proof. destruct v; simpl; try discriminate; eauto. Qed.

Lemma dateString_scalar v : isScalar v = true -> dateString v = Ok (toLocaleDateString v).
Proof. destruct v; simpl; try discriminate; reflexivity. Qed.

Lemma orElse_scalar a b : isScalar a = true -> isScalar b = true -> isScalar (orElse a b) = true.
Proof. unfold orElse. destruct (truthy a); auto. Qed.

Lemma getOpt_total v a b : nullish v = false -> exists x, getOpt v a b = Ok x.
Proof.
  intros Hv. unfold getOpt. destruct (get_total v a Hv) as [y ->].
  cbn [rbind]. unfold optGet. destruct y; simpl; eauto.
Qed.

Lemma issue_endpoint key : template [#"/issue/"; $(VStr key)] = Ok ("/issue/" ++ key).
Proof. cbn [template rbind toString]. now rewrite append_nil_r. Qed.

Lemma mentions_here4 a b c d after :
  mentions (a ++ b ++ c ++ d ++ after) (a ++ b ++ c ++ d).
Proof. exists EmptyString, after. cbn [append]. now rewrite !append_assoc. Qed.

Lemma nullish_scalar v : nullish v = true -> isScalar v = true.
Proof. destruct v; simpl; congruence. Qed.

Lemma mentions_later a s t : mentions s t -> mentions (a ++ s) t.
Proof.
  intros (before & after & ->). exists (a ++ before), after.
  now rewrite append_assoc.
Qed.

(** C8.  When the issue comes back without a description, rendered or
    raw, Get Issue does not fail: the extractor gives the empty list on
    the missing description and the report says "None found" under the
    acceptance-criteria heading. *)
Theorem issue_without_description (args resp : value) (key : string)
  (log : list AxiosConfig) :
  argument args "issueKey" = VStr key ->
  remote log (issueRequest key) = Ok resp ->
  lacksDescription resp = true ->
  printsPlainly resp = true ->
  (forall missing, nullish missing = true -> extractAcceptanceCriteria missing = Ok [])
  /\ exists report,
       callTool "jira_get_issue" args log
       = (Ok (textEnvelope report), (log ++ [issueRequest key])%list)
       /\ mentions report ("**Acceptance Criteria:**" ++ nl ++ "None found" ++ nl).
Proof.
  intros Hkey Hresp Hlacks Hplain.
  split; [intros missing Hm; apply extract_falsy, nullish_falsy, Hm |].
  unfold lacksDescription in Hlacks. apply andb_prop in Hlacks.
  destruct Hlacks as [Hr Hf].
  apply reading_inv in Hr. destruct Hr as (rendered & Hrendered & Hrn).
  apply reading_inv in Hf. destruct Hf as (raw & Hraw & Hrawn).
  unfold printsPlainly in Hplain.
  apply andb_prop in Hplain. destruct Hplain as [Hk Hfields].
  apply reading_inv in Hk. destruct Hk as (k & Hk & Hks).
  apply reading_inv in Hfields. destruct Hfields as (fields & Hfields & Hrest).
  repeat match goal with
  | H : (_ && _)%bool = true |- _ => apply andb_prop in H; destruct H
  end.
  repeat match goal with
  | H : reading _ _ = true |- _ =>
      apply reading_inv in H; destruct H as (? & ? & ?)
  end.
  pose proof (nullish_scalar _ Hrawn) as Hraws.
  match goal with
  | H : negb (nullish fields) = true |- _ =>
      apply negb_true_iff in H;
      destruct (getOpt_total fields "reporter" "displayName" H) as [reporter Hreporter]
  end.
  match goal with
  | H : getOpt fields "assignee" _ = Ok ?v, Hv : isScalar ?v = true |- _ =>
      pose proof (orElse_scalar v (VStr "Unassigned") Hv eq_refl)
  end.
  repeat match goal with
  | H : isScalar ?v = true |- _ =>
      let s := fresh "s" in
      let Hs := fresh "Hs" in
      pose proof (dateString_scalar v H);
      destruct (toString_scalar v H) as [s Hs]; revert H
  end.
  intros.
  unfold callTool. rewrite dispatch_get_issue, optGet_argument, Hkey, bind_lift_ok.
  unfold getIssue. rewrite issue_endpoint, bind_lift_ok.
  erewrite tryCatch_run; [eexists; split; [reflexivity |] |].
  2:{ erewrite bind_run by (rewrite makeJiraRequest_run; fold (issueRequest key);
                            rewrite Hresp; reflexivity).
      rewrite Hrendered, bind_lift_ok, (nullish_falsy _ Hrn).
      rewrite Hraw, bind_lift_ok.
      rewrite (extract_falsy _ (nullish_falsy _ Hrawn)), bind_lift_ok.
      rewrite Hk, bind_lift_ok, Hfields, bind_lift_ok.
      repeat match goal with
      | H : get fields _ = Ok _ |- _ => rewrite H, bind_lift_ok; clear H
      | H : getOpt fields _ _ = Ok _ |- _ => rewrite H, bind_lift_ok; clear H
      end.
      repeat match goal with
      | H : dateString ?v = Ok _ |- context [dateString ?v] => rewrite !H
      | H : toString ?v = Ok _ |- context [toString ?v] => rewrite !H
      end.
      cbn [template rbind]. rewrite !bind_lift_ok. reflexivity. }
  repeat first [apply mentions_here4 | apply mentions_later].
Qed.

(** *** The dispatcher *)

Lemma reportsText_ret t : reportsText (ret (textEnvelope t)).
Proof. intros log env H. injection H as <-. eauto. Qed.

Lemma reportsText_throw e : reportsText (throw e).
Proof. intros log env H. discriminate. Qed.

Lemma reportsText_bind {A} (m : M A) (f : A -> M Envelope) :
  (forall a, reportsText (f a)) -> reportsText (bind m f).
Proof.
  intros Hf log env. unfold bind.
  destruct (m log) as [[a|e] log']; [apply Hf | discriminate].
Qed.

Lemma reportsText_tryCatch (m : M Envelope) (h : exn -> M Envelope) :
  reportsText m -> (forall e, reportsText (h e)) -> reportsText (tryCatch m h).
Proof.
  intros Hm Hh log env. unfold tryCatch. specialize (Hm log).
  destruct (m log) as [[a|e] log']; [apply Hm | apply Hh].
Qed.

Ltac report :=
  repeat first
    [ apply reportsText_ret | apply reportsText_throw
    | apply reportsText_bind; intro
    | apply reportsText_tryCatch; [| intro]
    | match goal with
      | |- reportsText (if ?b then _ else _) => destruct b
      end ].

Lemma reportsText_dispatch name args : reportsText (dispatch name args).
Proof.
  unfold dispatch, getIssue, searchIssues, getIssueComments, getTransitions,
    updateIssue, createIssue.
  report.
Qed.

Lemma unknown_dispatch name args :
  ~ In name catalog -> dispatch name args = throw (JsError ("Unknown tool: " ++ name)).
Proof.
  intros Hnot. unfold dispatch.
  repeat match goal with
  | |- (if String.eqb name ?n then _ else _) = _ =>
      destruct (String.eqb_spec name n) as [->|_];
      [exfalso; apply Hnot; unfold catalog; simpl; tauto |]
  end.
  reflexivity.
Qed.

(** C1, as amended.  Every tool call, whatever its name and arguments and
    whatever the remote does, returns an envelope with one text block and
    throws nothing.  An exception that leaves the selected handler is
    reported as "Error: " followed by its message, and so is a name
    outside the catalog, as "Error: Unknown tool: " plus the name.  The
    requests issued are those of the handler. *)
Theorem callTool_always_reports (name : string) (args : value)
  (log : list AxiosConfig) :
  exists t,
    callTool name args log = (Ok (textEnvelope t), snd (dispatch name args log))
    /\ content (textEnvelope t) = [ {| type := "text"; text := t |} ]
    /\ (forall env, fst (dispatch name args log) = Ok env -> env = textEnvelope t)
    /\ (forall e, fst (dispatch name args log) = Throw e -> t = "Error: " ++ message e)
    /\ (~ In name catalog -> t = "Error: Unknown tool: " ++ name).
Proof.
  pose proof (reportsText_dispatch name args log) as Hshape.
  pose proof (unknown_dispatch name args) as Hunknown.
  unfold callTool, tryCatch.
  destruct (dispatch name args log) as [[env|e] log'] eqn:Hrun; cbn [fst snd] in *.
  - destruct (Hshape env eq_refl) as [t ->]. exists t.
    repeat split; try congruence.
    intros Hnot. rewrite (Hunknown Hnot) in Hrun. discriminate.
  - exists ("Error: " ++ message e).
    repeat split; try congruence.
    intros Hnot. rewrite (Hunknown Hnot) in Hrun.
    injection Hrun as <- _. reflexivity.
Qed.

(** *** The extractor *)

(** The patterns at work: the lazy group stops at the first blank line;
    under the [i] flag the class [[A-Z]] also stops it before a line that
    starts with a small letter; a scenario match runs to the end of the
    text; check boxes and bullets are single lines. *)
Example labelled_section_stops_at_blank_line :
  matchAll flags_gsi pat_acceptance
    ("Acceptance Criteria: login works" ++ nl ++ nl ++ "Notes")
  = ["Acceptance Criteria: login works"].
Proof. vm_compute. reflexivity. Qed.

Example class_ignores_case :
  matchAll flags_gsi pat_ac ("AC: one" ++ nl ++ "two") = ["AC: one"].
Proof. vm_compute. reflexivity. Qed.

Example scenario_runs_to_the_end :
  matchAll flags_gsi pat_gwt
    ("x GIVEN a" ++ nl ++ "When b" ++ nl ++ "then c" ++ nl ++ "tail")
  = ["GIVEN a" ++ nl ++ "When b" ++ nl ++ "then c" ++ nl ++ "tail"].
Proof. vm_compute. reflexivity. Qed.

Example checkbox_lines :
  matchAll flags_g pat_checkbox
    ("- [x] done" ++ nl ++ "- [ ] todo" ++ nl ++ "- [y] other")
  = ["- [x] done"; "- [ ] todo"].
Proof. vm_compute. reflexivity. Qed.

Example bullet_lines_deduplicated :
  collectCriteria ("* one" ++ nl ++ "* two" ++ nl ++ "* one") = ["* one"; "* two"].
Proof. vm_compute. reflexivity. Qed.

Lemma filter_all {A} (l : list A) : filter (fun _ => true) l = l.
Proof. induction l; simpl; congruence. Qed.

Lemma filter_twice {A} (P Q : A -> bool) (l : list A) :
  filter P (filter Q l) = filter (fun y => Q y && P y) l.
Proof.
  induction l as [| a l IH]; [reflexivity |].
  simpl. destruct (Q a); simpl; [destruct (P a) |]; now rewrite IH.
Qed.

Lemma arrayIncludes_snoc acc c y :
  arrayIncludes (acc ++ [c]) y = arrayIncludes acc y || String.eqb y c.
Proof.
  unfold arrayIncludes. rewrite existsb_app. simpl. now rewrite orb_false_r.
Qed.

Lemma fold_pushCleaned (ms acc : list string) :
  fold_left pushCleaned ms acc
  = (acc ++ filter (fun c => negb (arrayIncludes acc c))
              (firstSeen (filter (fun c => negb (isEmpty c)) (map clean ms))))%list.
Proof.
  revert acc. induction ms as [| m ms IH]; intro acc.
  - simpl. now rewrite app_nil_r.
  - cbn [fold_left map filter]. rewrite IH. unfold pushCleaned.
    destruct (isEmpty (clean m)) eqn:Hempty; cbn [negb andb]; [reflexivity |].
    cbn [firstSeen filter].
    destruct (arrayIncludes acc (clean m)) eqn:Hin; cbn [negb].
    + f_equal. rewrite filter_twice. apply filter_ext. intro y.
      destruct (String.eqb_spec y (clean m)) as [->|_]; [now rewrite Hin | reflexivity].
    + rewrite <- app_assoc. cbn [app]. do 2 f_equal.
      rewrite filter_twice. apply filter_ext. intro y.
      rewrite arrayIncludes_snoc, negb_orb. apply andb_comm.
Qed.

Lemma fold_patterns {P} (g : P -> list string) (ps : list P) (acc : list string) :
  fold_left (fun criteria p => fold_left pushCleaned (g p) criteria) ps acc
  = fold_left pushCleaned (flat_map g ps) acc.
Proof.
  revert acc. induction ps as [| p ps IH]; intro acc; [reflexivity |].
  cbn [fold_left flat_map]. now rewrite fold_left_app, IH.
Qed.

Lemma collectCriteria_firstSeen d : collectCriteria d = firstSeen (cleanedMatches d).
Proof.
  unfold collectCriteria, cleanedMatches, allMatches.
  rewrite fold_patterns, fold_pushCleaned. cbn [app arrayIncludes existsb negb].
  apply filter_all.
Qed.

Lemma firstSeen_NoDup l : NoDup (firstSeen l).
Proof.
  induction l as [| x l IH]; cbn [firstSeen]; constructor.
  - rewrite filter_In, String.eqb_refl. intros [_ H]. discriminate.
  - now apply NoDup_filter.
Qed.


(** C3, evaluated.  The cleaning step cuts the first "ac" wherever it
    stands in the matched text, not only a leading label: the bullet line
    "* Track user activity" is listed as "* Trk user activity". *)
Theorem cleaning_cuts_inside_text :
  matchAll flags_g pat_bullet "* Track user activity" = ["* Track user activity"]
  /\ clean "* Track user activity" = "* Trk user activity"
  /\ clean "Acceptance Criteria: all actions logged" = "all tions logged"
  /\ extractAcceptanceCriteria (VStr "* Track user activity")
     = Ok ["k user activity"; "* Trk user activity"].
Proof. vm_compute. repeat split. Qed.


(** *** The requests of a call *)

Lemma wellFormed_requestConfig endpoint options :
  prefix "/" endpoint = true -> wellFormedRequest (requestConfig endpoint options).
Proof.
  intros Hslash. unfold wellFormedRequest, requestConfig. cbn [url headers method].
  split; [exists endpoint; split; [now rewrite append_assoc | exact Hslash] |].
  split; [left; reflexivity |].
  split; [right; left; reflexivity |].
  destruct (o_method options) as [[| |]|]; cbn [app In]; split;
    try congruence; try tauto;
    intros [H | [H | H]]; try discriminate H; try contradiction.
Qed.

Lemma snd_bind_lift {A B} (r : result A) (f : A -> M B) log :
  snd (bind (lift r) f log)
  = match r with Ok a => snd (f a log) | Throw _ => log end.
Proof. destruct r; reflexivity. Qed.

Lemma getIssue_requests issueKey log :
  snd (getIssue issueKey log) = log
  \/ exists key, toString issueKey = Ok key
       /\ snd (getIssue issueKey log) = (log ++ [issueRequest key])%list.
Proof.
  unfold getIssue. cbn [template rbind].
  destruct (toString issueKey) as [key|e]; cbn [rbind]; [right | left; reflexivity].
  exists key. split; [reflexivity |].
  rewrite bind_lift_ok, append_nil_r.
  apply snd_request_then_silent. intro; silence.
Qed.

Lemma getIssueComments_requests issueKey log :
  snd (getIssueComments issueKey log) = log
  \/ exists key, toString issueKey = Ok key
       /\ snd (getIssueComments issueKey log) = (log ++ [commentsRequest key])%list.
Proof.
  unfold getIssueComments. cbn [template rbind].
  destruct (toString issueKey) as [key|e]; cbn [rbind]; [right | left; reflexivity].
  exists key. split; [reflexivity |].
  rewrite bind_lift_ok, append_nil_r.
  apply snd_request_then_silent. intro; silence.
Qed.

Lemma getTransitions_requests issueKey log :
  snd (getTransitions issueKey log) = log
  \/ exists key, toString issueKey = Ok key
       /\ snd (getTransitions issueKey log) = (log ++ [transitionsRequest key])%list.
Proof.
  unfold getTransitions. cbn [template rbind].
  destruct (toString issueKey) as [key|e]; cbn [rbind]; [right | left; reflexivity].
  exists key. split; [reflexivity |].
  rewrite bind_lift_ok, append_nil_r.
  apply snd_request_then_silent. intro; silence.
Qed.

Lemma callTool_requests name args log :
  snd (callTool name args log) = snd (dispatch name args log).
Proof. unfold callTool. apply snd_tryCatch_silent. intro; apply silent_ret. Qed.

Lemma readingTool_requests name args log :
  In name readingTools ->
  snd (dispatch name args log) = log
  \/ exists endpoint options,
       snd (dispatch name args log) = (log ++ [requestConfig endpoint options])%list
       /\ prefix "/" endpoint = true
       /\ o_method options = None /\ o_data options = None.
Proof.
  intros Hname. unfold readingTools in Hname. cbn [In] in Hname.
  destruct Hname as [<- | [<- | [<- | [<- | []]]]].
  - rewrite dispatch_get_issue, optGet_argument, bind_lift_ok.
    destruct (getIssue_requests (argument args "issueKey") log)
      as [-> | (key & _ & ->)]; [now left | right].
    do 2 eexists. split; [reflexivity |]. repeat split.
  - rewrite dispatch_search, !optGet_argument, !bind_lift_ok, searchIssues_request.
    right. do 2 eexists. split; [reflexivity |]. repeat split.
  - change (dispatch "jira_get_issue_comments" args)
      with (issueKey <~ optGet args "issueKey" ;; getIssueComments issueKey).
    rewrite optGet_argument, bind_lift_ok.
    destruct (getIssueComments_requests (argument args "issueKey") log)
      as [-> | (key & _ & ->)]; [now left | right].
    do 2 eexists. split; [reflexivity |]. repeat split.
  - change (dispatch "jira_get_transitions" args)
      with (issueKey <~ optGet args "issueKey" ;; getTransitions issueKey).
    rewrite optGet_argument, bind_lift_ok.
    destruct (getTransitions_requests (argument args "issueKey") log)
      as [-> | (key & _ & ->)]; [now left | right].
    do 2 eexists. split; [reflexivity |]. repeat split.
Qed.

Lemma requestConfig_get endpoint options :
  o_method options = None -> o_data options = None ->
  method (requestConfig endpoint options) = GET
  /\ data (requestConfig endpoint options) = None.
Proof. intros Hm Hd. unfold requestConfig. cbn [method data]. now rewrite Hm, Hd. Qed.

(** A reading tool sends at most one request; it is a [GET] without a
    body, addressed under the REST root with the fixed headers and no
    content type. *)
Theorem reading_tools_only_get (name : string) (args : value)
  (log : list AxiosConfig) :
  In name readingTools ->
  snd (callTool name args log) = log
  \/ exists c, snd (callTool name args log) = (log ++ [c])%list
       /\ method c = GET /\ data c = None /\ wellFormedRequest c.
Proof.
  intros Hname. rewrite callTool_requests.
  destruct (readingTool_requests name args log Hname)
    as [-> | (endpoint & options & -> & Hslash & Hm & Hd)]; [now left | right].
  exists (requestConfig endpoint options).
  destruct (requestConfig_get endpoint options Hm Hd) as [HGET Hbody].
  repeat split; auto; now apply wellFormed_requestConfig.
Qed.

Lemma get_argument args p : nullish args = false -> get args p = Ok (argument args p).
Proof. intros H. unfold argument, optGet. rewrite H. destruct (get_total args p H) as [x ->]. reflexivity. Qed.

Lemma changeStatus_requests issueKey transition updateResult log :
  exists status,
    snd (changeStatus issueKey transition updateResult log) = (log ++ status)%list
    /\ (truthy transition = false -> status = [])
    /\ (status = []
        \/ exists key, toString issueKey = Ok key
             /\ (status = [transitionsRequest key]
                 \/ exists id, status = [transitionsRequest key; submitRequest key id])).
Proof.
  unfold changeStatus. destruct (truthy transition).
  2:{ exists []. rewrite app_nil_r. repeat split; auto. }
  rewrite snd_tryCatch_silent by (intro; apply silent_ret).
  cbn [template rbind].
  destruct (toString issueKey) as [key|e] eqn:Hkey; cbn [rbind].
  2:{ exists []. rewrite app_nil_r. split; [reflexivity | split; [discriminate | now left]]. }
  rewrite bind_lift_ok, append_nil_r.
  unfold bind at 1. rewrite makeJiraRequest_run.
  fold (transitionsRequest key).
  destruct (remote log (transitionsRequest key)) as [resp|e].
  2:{ exists [transitionsRequest key]. split; [reflexivity | split; [discriminate |]].
      right. exists key. split; [reflexivity | now left]. }
  rewrite snd_bind_lift. destruct (get resp "transitions") as [listed|e].
  2:{ exists [transitionsRequest key]. split; [reflexivity | split; [discriminate |]].
      right. exists key. split; [reflexivity | now left]. }
  rewrite snd_bind_lift. destruct (findTransition transition listed) as [found|e].
  2:{ exists [transitionsRequest key]. split; [reflexivity | split; [discriminate |]].
      right. exists key. split; [reflexivity | now left]. }
  destruct (negb (truthy found)).
  { exists [transitionsRequest key]. split; [| split; [discriminate |]].
    - assert (Hs : forall (r : result string),
                silent (msg <~ r ;; @throw string (JsError msg)))
        by (intro; silence).
      apply Hs.
    - right. exists key. split; [reflexivity | now left]. }
  rewrite bind_lift_ok.
  rewrite snd_bind_lift. destruct (get found "id") as [id|e].
  2:{ exists [transitionsRequest key]. split; [reflexivity | split; [discriminate |]].
      right. exists key. split; [reflexivity | now left]. }
  rewrite snd_request_then_silent by (intro; silence).
  fold (submitRequest key id).
  exists [transitionsRequest key; submitRequest key id].
  split; [now rewrite <- app_assoc | split; [discriminate |]].
  right. exists key. split; [reflexivity |]. right. now exists id.
Qed.

Lemma changeFields_requests issueKey fields updateResult log :
  exists sent,
    snd (changeFields issueKey fields updateResult log) = (log ++ sent)%list
    /\ (fields = [] -> sent = [])
    /\ (sent = []
        \/ exists key, toString issueKey = Ok key /\ sent = [updateRequest key fields]).
Proof.
  unfold changeFields. destruct fields as [| f fields'].
  { exists []. rewrite app_nil_r. repeat split; auto. }
  rewrite snd_tryCatch_silent by (intro; apply silent_ret).
  cbn [template rbind].
  destruct (toString issueKey) as [key|e] eqn:Hkey; cbn [rbind].
  2:{ exists []. rewrite app_nil_r. split; [reflexivity | split; [discriminate | now left]]. }
  rewrite bind_lift_ok, append_nil_r.
  rewrite snd_request_then_silent by (intro; silence).
  fold (updateRequest key (f :: fields')).
  exists [updateRequest key (f :: fields')].
  split; [reflexivity | split; [discriminate |]].
  right. now exists key.
Qed.

Lemma updateFields_none assignee summary description priority :
  truthy assignee = false -> truthy summary = false ->
  truthy description = false -> truthy priority = false ->
  updateFields assignee summary description priority = [].
Proof. intros H1 H2 H3 H4. unfold updateFields. now rewrite H1, H2, H3, H4. Qed.

Lemma updateIssue_requests args log :
  exists status sent,
    snd (updateIssue args log) = (log ++ status ++ sent)%list
    /\ (status = []
        \/ exists key,
             status = [transitionsRequest key]
             \/ exists id, status = [transitionsRequest key; submitRequest key id])
    /\ (sent = [] \/ exists key fields, sent = [updateRequest key fields])
    /\ (truthy (argument args "transition") = false -> status = [])
    /\ (Forall (fun p => truthy (argument args p) = false)
          ["assignee"; "summary"; "description"; "priority"] -> sent = []).
Proof.
  unfold updateIssue, destructure.
  destruct (nullish args) eqn:Hnn.
  { exists [], []. rewrite app_nil_r. repeat split; auto. }
  rewrite !(get_argument _ _ Hnn), !bind_lift_ok.
  set (issueKey := argument args "issueKey").
  destruct (changeStatus_requests issueKey (argument args "transition") EmptyString log)
    as (status & Hstatus & Hnone & Hshape).
  assert (Hshape' : status = []
        \/ exists key,
             status = [transitionsRequest key]
             \/ exists id, status = [transitionsRequest key; submitRequest key id]).
  { destruct Hshape as [-> | (key & _ & H)]; [now left | right; now exists key]. }
  unfold bind at 1.
  destruct (changeStatus issueKey (argument args "transition") EmptyString log)
    as [[afterStatus|e] log1] eqn:Hrun; cbn [snd] in Hstatus; subst log1.
  2:{ exists status, []. rewrite app_nil_r. cbn [snd]. repeat split; auto. }
  set (fields := updateFields _ _ _ _).
  destruct (changeFields_requests issueKey fields afterStatus (log ++ status)%list)
    as (sent & Hsent & Hnofields & Hput).
  assert (Hput' : sent = [] \/ exists key fs, sent = [updateRequest key fs]).
  { destruct Hput as [-> | (key & _ & ->)]; [now left | right; eauto]. }
  assert (Hnone' : Forall (fun p => truthy (argument args p) = false)
            ["assignee"; "summary"; "description"; "priority"] -> sent = []).
  { intros Hall. apply Hnofields. unfold fields.
    inversion Hall as [| ? ? H1 Hall1]; subst.
    inversion Hall1 as [| ? ? H2 Hall2]; subst.
    inversion Hall2 as [| ? ? H3 Hall3]; subst.
    inversion Hall3 as [| ? ? H4 _]; subst.
    now apply updateFields_none. }
  exists status, sent.
  split; [| repeat split; auto].
  unfold bind at 1.
  destruct (changeFields issueKey fields afterStatus (log ++ status)%list)
    as [[updateResult|e] log2] eqn:Hrun2; cbn [snd] in Hsent; subst log2.
  - match goal with
    | |- snd (bind (lift ?r) ?f ?l) = _ =>
        rewrite (snd_bind_lift r f l); destruct r; cbn [snd ret]
    end; now rewrite app_assoc.
  - cbn [snd]. now rewrite app_assoc.
Qed.

(** Update Issue sends its requests in a fixed pattern: for the status
    nothing, the fetch of the transitions, or the fetch and the
    submission; then for the fields nothing or one [PUT].  Without a
    transition nothing is sent for the status, without a field value
    nothing for the fields. *)
Theorem update_request_pattern (args : value) (log : list AxiosConfig) :
  exists status sent,
    snd (callTool "jira_update_issue" args log) = (log ++ status ++ sent)%list
    /\ In (map method status) [[]; [GET]; [GET; POST]]
    /\ In (map method sent) [[]; [PUT]]
    /\ (truthy (argument args "transition") = false -> status = [])
    /\ (Forall (fun p => truthy (argument args p) = false)
          ["assignee"; "summary"; "description"; "priority"] -> sent = []).
Proof.
  rewrite callTool_requests, dispatch_update.
  destruct (updateIssue_requests args log)
    as (status & sent & Hrun & Hstatus & Hsent & Hnone & Hnofields).
  exists status, sent. split; [exact Hrun |].
  split; [destruct Hstatus as [-> | (key & [-> | (id & ->)])]; cbn; auto |].
  split; [destruct Hsent as [-> | (key & fields & ->)]; cbn; auto |].
  split; assumption.
Qed.

Lemma createIssue_requests args log :
  snd (createIssue args log) = log
  \/ exists fields, snd (createIssue args log) = (log ++ [createRequest fields])%list.
Proof.
  unfold createIssue, destructure.
  destruct (nullish args) eqn:Hnn; [now left |].
  rewrite !(get_argument _ _ Hnn), !bind_lift_ok. cbv zeta.
  rewrite snd_bind_lift.
  destruct (createFields _ _ _ _ _ _ _) as [fields|e]; [right | now left].
  exists fields.
  rewrite snd_tryCatch_silent by (intro; silence).
  apply snd_request_then_silent. intro; silence.
Qed.

(** Whatever the tool name and the arguments, a call sends at most three
    requests; each goes to an address under the REST root of the
    configured base URL and carries the basic-authentication and accept
    headers, with a JSON content type exactly when it is not a [GET].  A
    name outside the catalog sends nothing. *)
Theorem every_request_well_formed (name : string) (args : value)
  (log : list AxiosConfig) :
  exists more,
    snd (callTool name args log) = (log ++ more)%list
    /\ List.length more <= 3
    /\ Forall wellFormedRequest more
    /\ (~ In name catalog -> more = []).
Proof.
  rewrite callTool_requests.
  destruct (in_dec string_dec name catalog) as [Hin | Hout].
  2:{ exists []. rewrite (unknown_dispatch name args Hout), app_nil_r.
      split; [reflexivity | split; [cbn; lia | split; [constructor | reflexivity]]]. }
  assert (Hcases : In name readingTools \/ name = "jira_update_issue"
                   \/ name = "jira_create_issue").
  { unfold catalog, readingTools in *. cbn [In] in *.
    destruct Hin as [<- | [<- | [<- | [<- | [<- | [<- | []]]]]]]; tauto. }
  destruct Hcases as [Hread | [-> | ->]].
  - destruct (readingTool_requests name args log Hread)
      as [-> | (endpoint & options & -> & Hslash & _ & _)].
    + exists []. rewrite app_nil_r.
      split; [reflexivity | split; [cbn; lia | split; [constructor | tauto]]].
    + exists [requestConfig endpoint options].
      split; [reflexivity | split; [cbn; lia | split; [| tauto]]].
      apply Forall_cons; [now apply wellFormed_requestConfig | apply Forall_nil].
  - rewrite dispatch_update.
    destruct (updateIssue_requests args log)
      as (status & sent & -> & Hstatus & Hsent & _ & _).
    exists (status ++ sent)%list.
    split; [reflexivity |].
    destruct Hstatus as [-> | (key & [-> | (id & ->)])];
      destruct Hsent as [-> | (key' & fields & ->)];
      (split; [cbn; lia |]); (split; [| tauto]); cbn [app];
      repeat (apply Forall_cons; [apply wellFormed_requestConfig; reflexivity |]);
      apply Forall_nil.
  - rewrite dispatch_create.
    destruct (createIssue_requests args log) as [-> | (fields & ->)].
    + exists []. rewrite app_nil_r.
      split; [reflexivity | split; [cbn; lia | split; [constructor | tauto]]].
    + exists [createRequest fields].
      split; [reflexivity | split; [cbn; lia | split; [| tauto]]].
      apply Forall_cons; [apply wellFormed_requestConfig; reflexivity | apply Forall_nil].
Qed.

(** *** Update Issue, phase by phase *)

Lemma changeStatus_rejected key wanted e updateResult log :
  wanted <> EmptyString ->
  remote log (transitionsRequest key) = Throw e ->
  changeStatus (VStr key) (VStr wanted) updateResult log
  = (Ok (updateResult ++ cross ++ " Failed to change status: " ++ message e ++ nl),
     (log ++ [transitionsRequest key])%list).
Proof.
  intros Hwanted Hreject.
  unfold changeStatus. rewrite (truthy_text _ Hwanted).
  erewrite tryCatch_run_throw; [reflexivity |].
  rewrite transitions_endpoint, bind_lift_ok.
  unfold bind. rewrite makeJiraRequest_run. fold (transitionsRequest key).
  now rewrite Hreject.
Qed.

Lemma update_endpoint key : template [#"/issue/"; $(VStr key)] = Ok ("/issue/" ++ key).
Proof. cbn [template rbind toString]. now rewrite append_nil_r. Qed.

Lemma changeFields_outcome key fields updateResult log :
  fields <> [] ->
  changeFields (VStr key) fields updateResult log
  = (Ok (updateResult
         ++ match remote log (updateRequest key fields) with
            | Ok _ => tick ++ " Updated fields: " ++ join ", " (map fst fields) ++ nl
            | Throw e => cross ++ " Failed to update fields: " ++ message e ++ nl
            end),
     (log ++ [updateRequest key fields])%list).
Proof.
  intros Hsome. unfold changeFields.
  destruct fields as [| f fields']; [congruence |].
  rewrite update_endpoint, bind_lift_ok.
  unfold tryCatch, bind. rewrite makeJiraRequest_run.
  fold (updateRequest key (f :: fields')).
  destruct (remote log (updateRequest key (f :: fields'))); reflexivity.
Qed.

Lemma update_report key updateResult :
  updateResult <> EmptyString ->
  template [#"Update results for "; $(VStr key); #":"; #nl; #nl;
            #(if isEmpty updateResult then "No updates requested" else updateResult)]
  = Ok ("Update results for " ++ key ++ ":" ++ nl ++ nl ++ updateResult).
Proof.
  intros Hsome. destruct updateResult; [congruence |].
  cbn [template rbind toString isEmpty]. now rewrite append_nil_r.
Qed.

(** The two phases of Update Issue do not block each other: when the
    fetch of the transitions is rejected and a field value was given, the
    field update is still sent, and the report carries the failure line
    of the status followed by the outcome line of the fields. *)
Theorem update_phases_independent (args : value) (key wanted : string) (e : exn)
  (log : list AxiosConfig) :
  get args "issueKey" = Ok (VStr key) ->
  get args "transition" = Ok (VStr wanted) ->
  wanted <> EmptyString ->
  let fields :=
    updateFields (argument args "assignee") (argument args "summary")
      (argument args "description") (argument args "priority") in
  fields <> [] ->
  remote log (transitionsRequest key) = Throw e ->
  callTool "jira_update_issue" args log
  = (Ok (textEnvelope
           ("Update results for " ++ key ++ ":" ++ nl ++ nl
            ++ cross ++ " Failed to change status: " ++ message e ++ nl
            ++ match remote (log ++ [transitionsRequest key])%list
                       (updateRequest key fields) with
               | Ok _ => tick ++ " Updated fields: " ++ join ", " (map fst fields) ++ nl
               | Throw e' => cross ++ " Failed to update fields: " ++ message e' ++ nl
               end)),
     (log ++ [transitionsRequest key; updateRequest key fields])%list).
Proof.
  intros Hkey Htr Hwanted fields Hsome Hreject.
  assert (Hnn : nullish args = false) by (eapply get_defined; eauto).
  unfold callTool. rewrite dispatch_update.
  unfold updateIssue, destructure. rewrite Hnn, Hkey, Htr.
  rewrite !(get_argument _ _ Hnn), !bind_lift_ok. fold fields.
  erewrite tryCatch_run; [reflexivity |].
  erewrite bind_run by (apply changeStatus_rejected; eauto).
  erewrite bind_run by (apply changeFields_outcome; exact Hsome).
  rewrite update_report by (cbn [append]; discriminate).
  rewrite bind_lift_ok. unfold ret.
  rewrite <- ?app_assoc, ?append_assoc. reflexivity.
Qed.

(** Without a transition and with at least one field value, Update Issue
    sends exactly one request, the [PUT] of the partial [fields] object
    (assignee as an e-mail address, priority by name, in the order
    assignee, summary, description, priority), and reports the keys it
    updated, or the failure when the remote rejects. *)
Theorem update_fields_only (args : value) (key : string) (log : list AxiosConfig) :
  get args "issueKey" = Ok (VStr key) ->
  truthy (argument args "transition") = false ->
  let fields :=
    updateFields (argument args "assignee") (argument args "summary")
      (argument args "description") (argument args "priority") in
  fields <> [] ->
  callTool "jira_update_issue" args log
  = (Ok (textEnvelope
           ("Update results for " ++ key ++ ":" ++ nl ++ nl
            ++ match remote log (updateRequest key fields) with
               | Ok _ => tick ++ " Updated fields: " ++ join ", " (map fst fields) ++ nl
               | Throw e => cross ++ " Failed to update fields: " ++ message e ++ nl
               end)),
     (log ++ [updateRequest key fields])%list)
  /\ method (updateRequest key fields) = PUT
  /\ data (updateRequest key fields) = Some (VObj [("fields", VObj fields)]).
Proof.
  intros Hkey Hno fields Hsome.
  assert (Hnn : nullish args = false) by (eapply get_defined; eauto).
  split; [| split; reflexivity].
  unfold callTool. rewrite dispatch_update.
  unfold updateIssue, destructure. rewrite Hnn, Hkey.
  rewrite !(get_argument _ _ Hnn), !bind_lift_ok. fold fields.
  unfold changeStatus. rewrite Hno, bind_ret.
  erewrite tryCatch_run; [reflexivity |].
  erewrite bind_run by (apply changeFields_outcome; exact Hsome).
  rewrite update_report
    by (destruct (remote log (updateRequest key fields)); cbn [append]; discriminate).
  reflexivity.
Qed.

(** *** The reading tools at their edges *)

Lemma bind_throws {A B} (m : M A) (f : A -> M B) log e log' :
  m log = (Throw e, log') -> bind m f log = (Throw e, log').
Proof. intros H. unfold bind. now rewrite H. Qed.

Lemma request_rejected {A} endpoint options (f : value -> M A) e log :
  remote log (requestConfig endpoint options) = Throw e ->
  bind (makeJiraRequest endpoint options) f log
  = (Throw e, (log ++ [requestConfig endpoint options])%list).
Proof. intros H. apply bind_throws. now rewrite makeJiraRequest_run, H. Qed.

(** When the remote rejects the request of a reading tool, the call
    returns the text "Error: " followed by the message of the rejection,
    after that single [GET]. *)
Theorem reading_tool_reports_rejection (name : string) (args : value) (e : exn)
  (log : list AxiosConfig) :
  In name readingTools ->
  isScalar (argument args "issueKey") = true ->
  (forall c, remote log c = Throw e) ->
  exists c,
    callTool name args log
    = (Ok (textEnvelope ("Error: " ++ message e)), (log ++ [c])%list)
    /\ method c = GET.
Proof.
  intros Hname Hscalar Hreject.
  destruct (toString_scalar _ Hscalar) as [key Hkey].
  unfold readingTools in Hname. cbn [In] in Hname.
  unfold callTool.
  destruct Hname as [<- | [<- | [<- | [<- | []]]]].
  - rewrite dispatch_get_issue, optGet_argument, bind_lift_ok.
    unfold getIssue. cbn [template rbind]. rewrite Hkey. cbn [rbind].
    rewrite bind_lift_ok.
    eexists. split;
      [erewrite tryCatch_run_throw by (apply request_rejected, Hreject); reflexivity
      | reflexivity].
  - rewrite dispatch_search, !optGet_argument, !bind_lift_ok.
    unfold searchIssues.
    eexists. split;
      [erewrite tryCatch_run_throw by (apply request_rejected, Hreject); reflexivity
      | reflexivity].
  - change (dispatch "jira_get_issue_comments" args)
      with (issueKey <~ optGet args "issueKey" ;; getIssueComments issueKey).
    rewrite optGet_argument, bind_lift_ok.
    unfold getIssueComments. cbn [template rbind]. rewrite Hkey. cbn [rbind].
    rewrite bind_lift_ok.
    eexists. split;
      [erewrite tryCatch_run_throw by (apply request_rejected, Hreject); reflexivity
      | reflexivity].
  - change (dispatch "jira_get_transitions" args)
      with (issueKey <~ optGet args "issueKey" ;; getTransitions issueKey).
    rewrite optGet_argument, bind_lift_ok.
    unfold getTransitions. cbn [template rbind]. rewrite Hkey. cbn [rbind].
    rewrite bind_lift_ok.
    eexists. split;
      [erewrite tryCatch_run_throw by (apply request_rejected, Hreject); reflexivity
      | reflexivity].
Qed.

(** A missing issue key is not rejected by the server: the reading tools
    send their request all the same, addressed to the issue named
    "undefined". *)
Theorem missing_issue_key_is_sent (args : value) (log : list AxiosConfig) :
  argument args "issueKey" = VUndefined ->
  snd (callTool "jira_get_issue" args log) = (log ++ [issueRequest "undefined"])%list
  /\ snd (callTool "jira_get_issue_comments" args log)
     = (log ++ [commentsRequest "undefined"])%list
  /\ snd (callTool "jira_get_transitions" args log)
     = (log ++ [transitionsRequest "undefined"])%list
  /\ url (issueRequest "undefined") = baseUrl config ++ "/rest/api/3/issue/undefined".
Proof.
  intros Hmissing. rewrite !callTool_requests.
  split; [| split; [| split]].
  - rewrite dispatch_get_issue, optGet_argument, Hmissing, bind_lift_ok.
    unfold getIssue. cbn [template rbind toString].
    rewrite bind_lift_ok. apply snd_request_then_silent. intro; silence.
  - change (dispatch "jira_get_issue_comments" args)
      with (issueKey <~ optGet args "issueKey" ;; getIssueComments issueKey).
    rewrite optGet_argument, Hmissing, bind_lift_ok.
    unfold getIssueComments. cbn [template rbind toString].
    rewrite bind_lift_ok. apply snd_request_then_silent. intro; silence.
  - change (dispatch "jira_get_transitions" args)
      with (issueKey <~ optGet args "issueKey" ;; getTransitions issueKey).
    rewrite optGet_argument, Hmissing, bind_lift_ok.
    unfold getTransitions. cbn [template rbind toString].
    rewrite bind_lift_ok. apply snd_request_then_silent. intro; silence.
  - unfold issueRequest, requestConfig. cbn [url]. now rewrite append_assoc.
Qed.

(** *** Create Issue, its outcomes *)

Lemma createIssue_unfold args :
  nullish args = false ->
  createIssue args
  = (let projectKey := argument args "projectKey" in
     let summary := argument args "summary" in
     let description := argument args "description" in
     let issueType := issueTypeOrDefault (argument args "issueType") in
     let priority := argument args "priority" in
     let assignee := argument args "assignee" in
     let labels := argument args "labels" in
     fields <~ createFields projectKey summary description issueType priority
                 assignee labels ;;
     tryCatch
       (resp <- makeJiraRequest "/issue"
                  {| o_params := None;
                     o_data := Some (VObj [("fields", VObj fields)]);
                     o_method := Some POST |} ;;
        issueKey <~ get resp "key" ;;
        issueUrl <~ template [#(baseUrl config); #"/browse/"; $issueKey] ;;
        report <~ template
          [#tick; #" Successfully created issue: **"; $issueKey; #"**"; #nl; #nl;
           #"**Summary:** "; $summary; #nl;
           #"**Project:** "; $projectKey; #nl;
           #"**Issue Type:** "; $issueType; #nl;
           whenSet priority [#"**Priority:** "; $priority]; #nl;
           whenSet assignee [#"**Assignee:** "; $assignee]; #nl;
           rbind (hasLabels labels) (fun some =>
             if some then template [#"**Labels:** "; joinLabels labels]
             else Ok EmptyString); #nl; #nl;
           #"**URL:** "; #issueUrl; #nl; #nl;
           whenSet description [#"**Description:**"; #nl; $description]] ;;
        ret (textEnvelope report))
       (fun error =>
          let errorMessage := message error in
          tip1 <~ (if includes errorMessage "project" || includes errorMessage "Project"
                   then tipProject projectKey else Ok EmptyString) ;;
          tip2 <~ (if includes errorMessage "issuetype" || includes errorMessage "Issue Type"
                   then tipIssueType issueType else Ok EmptyString) ;;
          tip3 <~ (if includes errorMessage "priority"
                   then tipPriority priority else Ok EmptyString) ;;
          let helpfulError := errorMessage ++ tip1 ++ tip2 ++ tip3 in
          ret (textEnvelope (cross ++ " Failed to create issue: " ++ helpfulError)))).
Proof.
  intros Hnn. unfold createIssue, destructure.
  rewrite Hnn. cbv zeta. rewrite !(get_argument _ _ Hnn), !bind_lift_ok. reflexivity.
Qed.

(** A rejected creation is reported by Create Issue itself: the report is
    the failure line with the message of the rejection, followed by the
    project tip when the message mentions "project" or "Project", the
    issue-type tip when it mentions "issuetype" or "Issue Type", and the
    priority tip when it mentions "priority". *)
Theorem create_rejection_reported (args : value) (fields : list (string * value))
  (pk it pr : string) (e : exn) (log : list AxiosConfig) :
  nullish args = false ->
  let projectKey := argument args "projectKey" in
  let issueType := issueTypeOrDefault (argument args "issueType") in
  let priority := argument args "priority" in
  createFields projectKey (argument args "summary") (argument args "description")
    issueType priority (argument args "assignee") (argument args "labels") = Ok fields ->
  toString projectKey = Ok pk ->
  toString issueType = Ok it ->
  toString priority = Ok pr ->
  remote log (createRequest fields) = Throw e ->
  callTool "jira_create_issue" args log
  = (Ok (textEnvelope
           (cross ++ " Failed to create issue: " ++ message e
            ++ (if includes (message e) "project" || includes (message e) "Project"
                then nl ++ nl ++ "Tip: Make sure the project key " ++ dquote ++ pk ++ dquote
                     ++ " exists and you have permission to create issues in it."
                else EmptyString)
            ++ (if includes (message e) "issuetype" || includes (message e) "Issue Type"
                then nl ++ nl ++ "Tip: Make sure the issue type " ++ dquote ++ it ++ dquote
                     ++ " is valid for this project. Common types: Task, Bug, Story, Epic."
                else EmptyString)
            ++ (if includes (message e) "priority"
                then nl ++ nl ++ "Tip: Make sure the priority " ++ dquote ++ pr ++ dquote
                     ++ " is valid. Common priorities: Highest, High, Medium, Low, Lowest."
                else EmptyString))),
     (log ++ [createRequest fields])%list).
Proof.
  intros Hnn projectKey issueType priority Hfields Hpk Hit Hpr Hreject.
  unfold callTool. rewrite dispatch_create, (createIssue_unfold _ Hnn). cbv zeta.
  fold projectKey issueType priority. rewrite Hfields, bind_lift_ok.
  erewrite tryCatch_run; [reflexivity |].
  erewrite tryCatch_run_throw
    by (apply request_rejected; fold (createRequest fields); exact Hreject).
  unfold tipProject, tipIssueType, tipPriority. cbn [template rbind].
  rewrite Hpk, Hit, Hpr. cbn [rbind].
  destruct (includes (message e) "project" || includes (message e) "Project");
    destruct (includes (message e) "issuetype" || includes (message e) "Issue Type");
    destruct (includes (message e) "priority");
    rewrite !bind_lift_ok; unfold ret; rewrite ?append_nil_r, ?append_assoc; reflexivity.
Qed.

(** *** Array lengths as numbers *)

Lemma digits2_pos_shift p k :
  digits2_pos (Pos.iter xO p k) = (digits2_pos p + k)%positive.
Proof.
  induction k using Pos.peano_ind.
  - simpl. lia.
  - rewrite Pos.iter_succ. simpl. rewrite IHk. lia.
Qed.

Lemma digits2_pos_bound p : (2 ^ (Zpos (digits2_pos p) - 1) <= Zpos p)%Z.
Proof.
  induction p; simpl digits2_pos.
  - rewrite Pos2Z.inj_succ.
    replace (Z.succ (Zpos (digits2_pos p)) - 1)%Z
      with (Z.succ (Zpos (digits2_pos p) - 1)) by lia.
    rewrite Z.pow_succ_r by lia. lia.
  - rewrite Pos2Z.inj_succ.
    replace (Z.succ (Zpos (digits2_pos p)) - 1)%Z
      with (Z.succ (Zpos (digits2_pos p) - 1)) by lia.
    rewrite Z.pow_succ_r by lia. lia.
  - simpl. lia.
Qed.

Lemma digits_small p : (Zpos p < 2 ^ 53)%Z -> (Zpos (digits2_pos p) <= 53)%Z.
Proof.
  intros H. pose proof (digits2_pos_bound p) as Hb.
  destruct (Z_le_gt_dec (Zpos (digits2_pos p)) 53) as [|Hgt]; [assumption | exfalso].
  assert (2 ^ 53 <= 2 ^ (Zpos (digits2_pos p) - 1))%Z by (apply Z.pow_le_mono_r; lia).
  lia.
Qed.

(** An integer below [2^53] is a double without rounding: its mantissa is
    shifted up to 53 bits and nothing is cut. *)
Lemma round_small p :
  (Zpos p < 2 ^ 53)%Z ->
  exists m e, binary_round 53 1024 false p 0 = S754_finite false m e.
Proof.
  intros Hp. pose proof (digits_small p Hp) as Hd.
  unfold binary_round.
  set (d := digits2_pos p) in *.
  assert (Hfexp : fexp 53 1024 (Zpos d + 0) = (Zpos d - 53)%Z).
  { unfold fexp, emin. lia. }
  rewrite Hfexp. unfold shl_align.
  destruct (Z.eq_dec (Zpos d) 53) as [Heq | Hne].
  - replace (Zpos d - 53 - 0)%Z with 0%Z by lia.
    unfold binary_round_aux, shr_fexp. cbn [Zdigits2]. fold d.
    assert (Hf0 : (fexp 53 1024 (Zpos d + 0) - 0 = 0)%Z) by (unfold fexp, emin; lia).
    rewrite Hf0.
    cbn [shr shr_record_of_loc shr_m loc_of_shr_record round_nearest_even Zdigits2].
    fold d. rewrite Hf0. cbn [shr shr_m]. cbn. eauto.
  - assert (Hneg : (Zpos d - 53 - 0)%Z = Zneg (Z.to_pos (53 - Zpos d))).
    { rewrite <- Pos2Z.opp_pos, Z2Pos.id by lia. lia. }
    rewrite Hneg. set (k := Z.to_pos (53 - Zpos d)).
    assert (Hk : Zpos k = (53 - Zpos d)%Z) by (unfold k; rewrite Z2Pos.id; lia).
    unfold binary_round_aux, shr_fexp. cbn [Zdigits2].
    rewrite digits2_pos_shift. fold d.
    assert (Hf0 : (fexp 53 1024 (Zpos (d + k) + (Zpos d - 53)) - (Zpos d - 53) = 0)%Z).
    { unfold fexp, emin. lia. }
    rewrite Hf0.
    cbn [shr shr_record_of_loc shr_m loc_of_shr_record round_nearest_even Zdigits2].
    rewrite digits2_pos_shift. fold d. rewrite Hf0. cbn [shr shr_m].
    assert (Hle : (Zpos d - 53 <=? 1024 - 53)%Z = true) by (apply Z.leb_le; lia).
    rewrite Hle. eauto.
Qed.

Lemma numOfNat_positive n :
  (0 < n)%nat -> (Z.of_nat n < 2 ^ 53)%Z ->
  SFltb (S754_zero false) (numOfNat n) = true.
Proof.
  intros Hn Hb. unfold numOfNat, binary_normalize.
  destruct (Z.of_nat n) as [| p | p] eqn:Hz; try lia.
  destruct (round_small p Hb) as (m & e & ->). reflexivity.
Qed.

Lemma hasLabels_array l :
  (Z.of_nat (List.length l) < 2 ^ 53)%Z ->
  hasLabels (VArr l) = Ok (negb (Nat.eqb (List.length l) 0)).
Proof.
  intros Hb. unfold hasLabels. cbn [truthy get String.eqb Ascii.eqb Bool.eqb rbind toNumber].
  destruct l as [| x l]; [reflexivity |].
  rewrite numOfNat_positive by (cbn [List.length] in *; lia). reflexivity.
Qed.

Lemma hasLabels_text s :
  s <> EmptyString -> (Z.of_nat (String.length s) < 2 ^ 53)%Z ->
  hasLabels (VStr s) = Ok true.
Proof.
  intros Hs Hb. unfold hasLabels. rewrite (truthy_text _ Hs).
  cbn [get String.eqb Ascii.eqb Bool.eqb rbind toNumber].
  rewrite numOfNat_positive; [reflexivity | | exact Hb].
  destruct s; [congruence | cbn; lia].
Qed.

(** Labels given as a text instead of a list make Create Issue fail
    before anything is sent: the call returns the type error as text and
    the request log is unchanged. *)
Theorem create_labels_must_be_a_list (args : value) (labels : string)
  (log : list AxiosConfig) :
  nullish args = false ->
  argument args "labels" = VStr labels ->
  labels <> EmptyString ->
  (Z.of_nat (String.length labels) < 2 ^ 53)%Z ->
  callTool "jira_create_issue" args log
  = (Ok (textEnvelope "Error: labels.map is not a function"), log).
Proof.
  intros Hnn Hlabels Hsome Hbound.
  unfold callTool. rewrite dispatch_create, (createIssue_unfold _ Hnn). cbv zeta.
  rewrite Hlabels. unfold createFields.
  rewrite (hasLabels_text _ Hsome Hbound). reflexivity.
Qed.

Lemma truthy_optText o : truthy (optText o) = supplied o.
Proof. destruct o; reflexivity. Qed.

Lemma whenSet_optText label o :
  whenSet (optText o) [#label; $(optText o)] = Ok (optLine label o).
Proof.
  unfold whenSet. rewrite truthy_optText.
  destruct o as [[| c t]|]; cbn [supplied isEmpty negb optLine]; try reflexivity.
  cbn [template rbind toString optText]. now rewrite append_nil_r.
Qed.

Lemma whenSet_description o :
  whenSet (optText o) [#"**Description:**"; #nl; $(optText o)]
  = Ok (optLine ("**Description:**" ++ nl) o).
Proof.
  unfold whenSet. rewrite truthy_optText.
  destruct o as [[| c t]|]; cbn [supplied isEmpty negb optLine]; try reflexivity.
  cbn [template rbind toString optText]. now rewrite append_nil_r, append_assoc.
Qed.

Lemma joinValues_texts sep ls :
  joinValues toString sep (map VStr ls) = Ok (join sep ls).
Proof.
  induction ls as [| x ls IH]; [reflexivity |].
  cbn [map joinValues nullish toString rbind join].
  destruct ls as [| y ls]; [reflexivity |].
  cbn [map] in *. rewrite IH. reflexivity.
Qed.

Lemma issueType_text it :
  toString (issueTypeOrDefault (optText it))
  = Ok match it with Some t => t | None => "Task" end.
Proof. destruct it; reflexivity. Qed.

Lemma createFields_texts pk s d it pr a ls labels :
  (labels = VArr (map VStr ls) \/ labels = VUndefined /\ ls = []) ->
  (Z.of_nat (List.length ls) < 2 ^ 53)%Z ->
  createFields (VStr pk) (VStr s) (optText d) (issueTypeOrDefault (optText it))
    (optText pr) (optText a) labels
  = Ok (expectedFields pk s d it pr a ls).
Proof.
  intros Hlabels Hbound. unfold createFields, expectedFields.
  rewrite !truthy_optText.
  destruct Hlabels as [-> | [-> ->]].
  - rewrite hasLabels_array by (now rewrite length_map).
    rewrite length_map. destruct ls as [| l ls]; cbn [List.length Nat.eqb negb rbind].
    + now rewrite <- !app_assoc, app_nil_r.
    + cbn [labelObjects rbind]. rewrite map_map, <- !app_assoc. reflexivity.
  - cbn [hasLabels truthy rbind]. now rewrite <- !app_assoc, app_nil_r.
Qed.

Lemma argument_defined args p s : argument args p = VStr s -> nullish args = false.
Proof. unfold argument, optGet. destruct (nullish args); [discriminate | reflexivity]. Qed.

(** Create Issue with textual arguments, accepted by the remote: the one
    request carries the [fields] object with the project key, the
    summary and the issue type ("Task" when none is given), then the
    description, the priority by name, the assignee as an e-mail address
    and the labels each wrapped as a named object, every optional one
    only when it is supplied; the report echoes the new key, the
    arguments and the browse address. *)
Theorem create_accepted (args resp : value) (k pk s : string)
  (d it pr a : option string) (ls : list string) (log : list AxiosConfig) :
  argument args "projectKey" = VStr pk ->
  argument args "summary" = VStr s ->
  argument args "description" = optText d ->
  argument args "issueType" = optText it ->
  argument args "priority" = optText pr ->
  argument args "assignee" = optText a ->
  (argument args "labels" = VArr (map VStr ls)
   \/ argument args "labels" = VUndefined /\ ls = []) ->
  (Z.of_nat (List.length ls) < 2 ^ 53)%Z ->
  let fields := expectedFields pk s d it pr a ls in
  remote log (createRequest fields) = Ok resp ->
  get resp "key" = Ok (VStr k) ->
  callTool "jira_create_issue" args log
  = (Ok (textEnvelope (createdReport k pk s d it pr a ls)),
     (log ++ [createRequest fields])%list).
Proof.
  intros Hpk Hs Hd Hit Hpr Ha Hls Hbound fields Hresp Hkey.
  pose proof (argument_defined _ _ _ Hpk) as Hnn.
  unfold callTool. rewrite dispatch_create, (createIssue_unfold _ Hnn). cbv zeta.
  rewrite Hpk, Hs, Hd, Hit, Hpr, Ha.
  rewrite (createFields_texts pk s d it pr a ls _ Hls Hbound), bind_lift_ok.
  fold fields.
  erewrite tryCatch_run; [reflexivity |].
  erewrite tryCatch_run; [reflexivity |].
  erewrite bind_run
    by (rewrite makeJiraRequest_run; fold (createRequest fields); rewrite Hresp; reflexivity).
  rewrite Hkey, bind_lift_ok.
  assert (Hlabels : rbind (hasLabels (argument args "labels")) (fun some =>
            if some then template [#"**Labels:** "; joinLabels (argument args "labels")]
            else Ok EmptyString)
          = Ok match ls with [] => EmptyString | _ => "**Labels:** " ++ join ", " ls end).
  { destruct Hls as [-> | [-> ->]]; [| reflexivity].
    rewrite hasLabels_array by (now rewrite length_map).
    rewrite length_map. destruct ls as [| l ls']; [reflexivity |].
    cbn [List.length Nat.eqb negb rbind joinLabels template].
    rewrite joinValues_texts. cbn [rbind]. now rewrite append_nil_r. }
  rewrite Hlabels, !whenSet_optText, whenSet_description, issueType_text.
  cbn [template rbind toString]. rewrite !bind_lift_ok.
  unfold ret, createdReport. rewrite ?append_nil_r, ?append_assoc. reflexivity.
Qed.

(** *** The reports of the listing tools *)

Lemma rmap_ok {A B} (f : A -> result B) (h : A -> B) (l : list A) :
  (forall x, f x = Ok (h x)) -> rmap f l = Ok (map h l).
Proof.
  intros Hf. induction l as [| x l IH]; [reflexivity |].
  cbn [rmap map]. now rewrite Hf, IH.
Qed.

Lemma rmap_map_ok {A B C} (f : B -> result C) (g : A -> B) (h : A -> C) (l : list A) :
  (forall x, f (g x) = Ok (h x)) -> rmap f (map g l) = Ok (map h l).
Proof.
  intros Hf. induction l as [| x l IH]; [reflexivity |].
  cbn [rmap map]. now rewrite Hf, IH.
Qed.

Lemma optMap_listOf {A B} what (f : value -> result B) (encode : A -> value)
  (h : A -> B) (rows : list A) (listed : value) :
  (forall x, f (encode x) = Ok (h x)) ->
  listOf encode rows listed ->
  optMap what f listed = Ok (map h rows).
Proof.
  intros Hf [-> | [Hnone ->]]; unfold optMap.
  - cbn [nullish]. now apply rmap_map_ok.
  - now rewrite Hnone.
Qed.

Lemma heading_text label key :
  template [#label; $(VStr key); #":"; #nl; #nl] = Ok (label ++ key ++ ":" ++ nl ++ nl).
Proof. cbn [template rbind toString]. now rewrite append_nil_r. Qed.

(** Get Transitions lists the transitions the remote returns, one line
    each in the remote's order, under the heading that names the issue;
    a missing list gives the heading alone. *)
Theorem transitions_listed (args resp listed : value) (key : string)
  (rows : list TransitionRow) (log : list AxiosConfig) :
  argument args "issueKey" = VStr key ->
  remote log (transitionsRequest key) = Ok resp ->
  get resp "transitions" = Ok listed ->
  listOf transitionValue rows listed ->
  callTool "jira_get_transitions" args log
  = (Ok (textEnvelope ("Available transitions for " ++ key ++ ":" ++ nl ++ nl
                       ++ join nl (map transitionText rows))),
     (log ++ [transitionsRequest key])%list).
Proof.
  intros Hkey Hresp Hlisted Hrows.
  unfold callTool.
  change (dispatch "jira_get_transitions" args)
    with (issueKey <~ optGet args "issueKey" ;; getTransitions issueKey).
  rewrite optGet_argument, Hkey, bind_lift_ok.
  unfold getTransitions. rewrite transitions_endpoint, bind_lift_ok.
  erewrite tryCatch_run; [reflexivity |].
  erewrite bind_run
    by (rewrite makeJiraRequest_run; fold (transitionsRequest key); rewrite Hresp; reflexivity).
  rewrite Hlisted, bind_lift_ok.
  rewrite (optMap_listOf _ transitionOf transitionValue
             (fun t => {| t_id := VStr (tr_id t); t_name := VStr (tr_name t);
                          t_to := VStr (tr_to t) |}) rows listed)
    by (auto; intros []; reflexivity).
  rewrite bind_lift_ok, heading_text, bind_lift_ok.
  rewrite (rmap_map_ok transitionLine _ transitionText)
    by (intros []; unfold transitionLine, transitionText;
        cbn [template rbind toString t_id t_name t_to tr_id tr_name tr_to];
        now rewrite append_nil_r).
  rewrite bind_lift_ok. unfold ret. rewrite ?append_assoc. reflexivity.
Qed.

(** Search Issues reports the number of issues the remote returns and
    one block for each, in the remote's order; an issue without an
    assignee is shown as "Unassigned", and the address of each issue is
    built from the configured base URL. *)
Theorem search_lists_issues (args resp listed : value) (rows : list IssueRow)
  (log : list AxiosConfig) :
  let request :=
    searchRequest (argument args "jql")
      (orElse (argument args "maxResults") (VNum fifty)) in
  remote log request = Ok resp ->
  get resp "issues" = Ok listed ->
  listOf issueValue rows listed ->
  callTool "jira_search_issues" args log
  = (Ok (textEnvelope ("Found " ++ natToString (List.length rows) ++ " issues:"
                       ++ nl ++ nl ++ join (nl ++ nl) (map issueText rows))),
     (log ++ [request])%list).
Proof.
  intros request Hresp Hlisted Hrows.
  unfold callTool.
  rewrite dispatch_search, !optGet_argument, !bind_lift_ok.
  unfold searchIssues.
  erewrite tryCatch_run; [reflexivity |].
  erewrite bind_run
    by (rewrite makeJiraRequest_run;
        fold (searchRequest (argument args "jql")
                (orElse (argument args "maxResults") (VNum fifty)));
        fold request; rewrite Hresp; reflexivity).
  rewrite Hlisted, bind_lift_ok.
  rewrite (optMap_listOf _ issueSummary issueValue
             (fun i => {| i_key := VStr (row_key i);
                          i_summary := VStr (row_summary i);
                          i_status := VStr (row_status i);
                          i_assignee :=
                            VStr match row_assignee i with
                                 | Some n => if isEmpty n then "Unassigned" else n
                                 | None => "Unassigned"
                                 end;
                          i_priority := VStr (row_priority i);
                          i_url := baseUrl config ++ "/browse/" ++ row_key i |})
             rows listed);
    [| intros [k s st [[| c n]|] p]; unfold issueSummary, issueValue;
       cbn; rewrite ?append_nil_r; reflexivity | exact Hrows].
  rewrite bind_lift_ok.
  rewrite (rmap_map_ok issueBlock _ issueText)
    by (intros [k s st a p]; unfold issueBlock, issueText;
        cbn [template rbind toString i_key i_summary i_status i_assignee i_priority
               i_url row_key row_summary row_status row_assignee row_priority];
        rewrite ?append_nil_r, ?append_assoc; reflexivity).
  rewrite bind_lift_ok, !length_map. reflexivity.
Qed.

Lemma comments_endpoint key :
  template [#"/issue/"; $(VStr key); #"/comment"] = Ok ("/issue/" ++ key ++ "/comment").
Proof. cbn [template rbind toString]. now rewrite append_nil_r. Qed.

(** Get Issue Comments shows the comments in the remote's order, each
    with its author, the date of its creation and its body, the rendered
    body when there is one and the raw body otherwise, separated by a
    rule. *)
Theorem comments_listed (args resp listed : value) (key : string)
  (rows : list CommentRow) (log : list AxiosConfig) :
  argument args "issueKey" = VStr key ->
  remote log (commentsRequest key) = Ok resp ->
  get resp "comments" = Ok listed ->
  listOf commentValue rows listed ->
  callTool "jira_get_issue_comments" args log
  = (Ok (textEnvelope ("Comments for " ++ key ++ ":" ++ nl ++ nl
                       ++ join (nl ++ nl ++ "---" ++ nl ++ nl) (map commentText rows))),
     (log ++ [commentsRequest key])%list).
Proof.
  intros Hkey Hresp Hlisted Hrows.
  unfold callTool.
  change (dispatch "jira_get_issue_comments" args)
    with (issueKey <~ optGet args "issueKey" ;; getIssueComments issueKey).
  rewrite optGet_argument, Hkey, bind_lift_ok.
  unfold getIssueComments. rewrite comments_endpoint, bind_lift_ok.
  erewrite tryCatch_run; [reflexivity |].
  erewrite bind_run
    by (rewrite makeJiraRequest_run; fold (commentsRequest key); rewrite Hresp; reflexivity).
  rewrite Hlisted, bind_lift_ok.
  rewrite (optMap_listOf _ comment commentValue
             (fun c => {| c_author := VStr (cm_author c);
                          c_created := VStr (cm_created c);
                          c_body :=
                            VStr match cm_rendered c with
                                 | Some r => if isEmpty r then cm_body c else r
                                 | None => cm_body c
                                 end |}) rows listed);
    [| intros [au cr [[| ch r]|] b]; reflexivity | exact Hrows].
  rewrite bind_lift_ok, heading_text, bind_lift_ok.
  rewrite (rmap_map_ok commentBlock _ commentText)
    by (intros [au cr r b]; unfold commentBlock, commentText, dateString;
        cbn [template rbind toString toPrimitive c_author c_created c_body
               cm_author cm_created cm_rendered cm_body];
        rewrite ?append_nil_r, ?append_assoc; reflexivity).
  rewrite bind_lift_ok. unfold ret. rewrite ?append_assoc. reflexivity.
Qed.

(** *** Get Issue and the description *)






(** A description that is neither empty nor a text, such as a structured
    document, has no [match] method: Get Issue then returns the type
    error as an "Error:" text, after its one request. *)
Theorem structured_description_is_an_error (args resp rendered raw : value)
  (key : string) (log : list AxiosConfig) :
  argument args "issueKey" = VStr key ->
  remote log (issueRequest key) = Ok resp ->
  getOpt resp "renderedFields" "description" = Ok rendered ->
  getOpt resp "fields" "description" = Ok raw ->
  truthy (orElse rendered raw) = true ->
  (forall s, orElse rendered raw <> VStr s) ->
  callTool "jira_get_issue" args log
  = (Ok (textEnvelope "Error: description.match is not a function"),
     (log ++ [issueRequest key])%list).
Proof.
  intros Hkey Hresp Hrendered Hraw Htruthy Hnotext.
  unfold callTool. rewrite dispatch_get_issue, optGet_argument, Hkey, bind_lift_ok.
  unfold getIssue. rewrite issue_endpoint, bind_lift_ok.
  rewrite (tryCatch_run_throw _ _ _ (TypeError "description.match is not a function")
             (log ++ [issueRequest key])%list); [reflexivity |].
  erewrite bind_run by (rewrite makeJiraRequest_run; fold (issueRequest key);
                        rewrite Hresp; reflexivity).
  rewrite Hrendered, bind_lift_ok.
  assert (Hchosen : (if truthy rendered then Ok rendered
                     else getOpt resp "fields" "description")
                    = Ok (orElse rendered raw)).
  { unfold orElse. destruct (truthy rendered); [reflexivity | exact Hraw]. }
  rewrite Hchosen, bind_lift_ok.
  unfold extractAcceptanceCriteria. rewrite Htruthy. cbn [negb].
  destruct (orElse rendered raw) as [| | | | s | |]; try reflexivity.
  exfalso. now apply (Hnotext s).
Qed.

(** *** Matches are pieces of the text *)










Lemma trimStart_shorter s : String.length (trimStart s) <= String.length s.
Proof.
  induction s as [| c s IH]; [reflexivity |].
  cbn [trimStart]. destruct (isSpace c); cbn [String.length]; lia.
Qed.



Lemma firstSeen_In x l : In x (firstSeen l) -> In x l.
Proof.
  induction l as [| y l IH]; [intros [] |].
  cbn [firstSeen]. intros [<- | Hin]; [now left | right].
  apply filter_In in Hin. now apply IH.
Qed.


Lemma collected_from_match d c :
  In c (collectCriteria d) -> exists m, In m (allMatches d) /\ c = clean m /\ c <> EmptyString.
Proof.
  rewrite collectCriteria_firstSeen. intros Hin. apply firstSeen_In in Hin.
  unfold cleanedMatches in Hin. apply filter_In in Hin. destruct Hin as [Hin Hne].
  apply in_map_iff in Hin. destruct Hin as (m & <- & Hm).
  exists m. split; [exact Hm | split; [reflexivity |]].
  intros Hempty. rewrite Hempty in Hne. discriminate.
Qed.


(** *** Criteria are trimmed *)

Lemma trimStart_idem s : trimStart (trimStart s) = trimStart s.
Proof.
  induction s as [| c s IH]; [reflexivity |].
  cbn [trimStart]. destruct (isSpace c) eqn:Hc; [exact IH |].
  cbn [trimStart]. now rewrite Hc.
Qed.

Lemma trimEnd_idem s : trimEnd (trimEnd s) = trimEnd s.
Proof.
  induction s as [| c s IH]; [reflexivity |].
  cbn [trimEnd]. destruct (trimEnd s) as [| c' t] eqn:Ht.
  - destruct (isSpace c) eqn:Hc; [reflexivity |].
    cbn [trimEnd]. now rewrite Hc.
  - cbn [trimEnd]. cbn [trimEnd] in IH. rewrite IH. reflexivity.
Qed.

Lemma trimStart_trimEnd s : trimStart s = s -> trimStart (trimEnd s) = trimEnd s.
Proof.
  destruct s as [| c s]; [reflexivity |].
  cbn [trimStart]. destruct (isSpace c) eqn:Hc.
  - intros H. pose proof (trimStart_shorter s) as Hlen.
    rewrite H in Hlen. cbn [String.length] in Hlen. lia.
  - intros _. cbn [trimEnd].
    destruct (trimEnd s); [rewrite Hc |]; cbn [trimStart]; now rewrite Hc.
Qed.

Lemma trim_idem s : trim (trim s) = trim s.
Proof.
  unfold trim. rewrite (trimStart_trimEnd _ (trimStart_idem s)). apply trimEnd_idem.
Qed.

(** Every criterion the extractor lists is a non-empty text without
    white space at either end, and no two entries are equal. *)
Theorem criteria_are_trimmed (d : string) :
  Forall (fun c => c <> EmptyString /\ trim c = c) (collectCriteria d)
  /\ NoDup (collectCriteria d).
Proof.
  split.
  - apply Forall_forall. intros c Hin.
    destruct (collected_from_match d c Hin) as (m & _ & Hc & Hne).
    split; [exact Hne |]. rewrite Hc. unfold clean. apply trim_idem.
  - rewrite collectCriteria_firstSeen. apply firstSeen_NoDup.
Qed.

(** *** Handlers that always report *)

Lemma changeStatus_returns issueKey transition updateResult log :
  exists r, fst (changeStatus issueKey transition updateResult log) = Ok r.
Proof.
  unfold changeStatus. destruct (truthy transition); [| eexists; reflexivity].
  unfold tryCatch.
  match goal with
  | |- exists r, fst (let (_, _) := ?m ?l in _) = _ => destruct (m l) as [[a|e] log']
  end; eexists; reflexivity.
Qed.

Lemma changeFields_returns issueKey fields updateResult log :
  exists r, fst (changeFields issueKey fields updateResult log) = Ok r.
Proof.
  unfold changeFields. destruct fields; [eexists; reflexivity |].
  unfold tryCatch.
  match goal with
  | |- exists r, fst (let (_, _) := ?m ?l in _) = _ => destruct (m l) as [[a|e] log']
  end; eexists; reflexivity.
Qed.

(** Update Issue fails only on a missing argument bag or an issue key
    that cannot be printed: with an argument bag and a plain issue key it
    returns its own report, "Update results for" the key, whatever the
    remote answers or rejects. *)
Theorem update_always_reports (args : value) (key : string) (log : list AxiosConfig) :
  nullish args = false ->
  toString (argument args "issueKey") = Ok key ->
  exists body,
    fst (callTool "jira_update_issue" args log)
    = Ok (textEnvelope ("Update results for " ++ key ++ ":" ++ nl ++ nl ++ body))
    /\ body <> EmptyString.
Proof.
  intros Hnn Hkey.
  unfold callTool. rewrite dispatch_update.
  unfold updateIssue, destructure. rewrite Hnn.
  rewrite !(get_argument _ _ Hnn), !bind_lift_ok.
  set (issueKey := argument args "issueKey") in *.
  unfold tryCatch, bind at 1.
  destruct (changeStatus_returns issueKey (argument args "transition") EmptyString log)
    as [r1 Hr1].
  destruct (changeStatus issueKey (argument args "transition") EmptyString log)
    as [[a|e] log1]; cbn [fst] in Hr1; [| discriminate].
  unfold bind at 1.
  set (fields := updateFields _ _ _ _).
  destruct (changeFields_returns issueKey fields a log1) as [r2 Hr2].
  destruct (changeFields issueKey fields a log1) as [[u|e] log2];
    cbn [fst] in Hr2; [| discriminate].
  cbn [template rbind]. rewrite Hkey. cbn [rbind]. rewrite bind_lift_ok.
  unfold ret. cbn [fst].
  exists (if isEmpty u then "No updates requested" else u).
  split; [now rewrite ?append_nil_r |].
  destruct u; cbn [isEmpty]; discriminate.
Qed.

Lemma prefix_append a b : prefix a (a ++ b) = true.
Proof.
  induction a as [| c a IH]; cbn [append prefix].
  - destruct b; reflexivity.
  - destruct (ascii_dec c c); [exact IH | congruence].
Qed.

Lemma template_starts a b rest r :
  template (Ok a :: Ok b :: rest) = Ok r -> prefix (a ++ b) r = true.
Proof.
  cbn [template rbind]. destruct (template rest) as [t|]; cbn [rbind]; [| discriminate].
  intros H. injection H as <-. rewrite <- append_assoc. apply prefix_append.
Qed.

(** Create Issue, once its [fields] object is built, always returns its
    own report: the success line, or the failure line when the remote
    rejects or its answer cannot be used; exactly one request is sent and
    the dispatcher's "Error:" text never appears. *)
Theorem create_always_reports (args : value) (fields : list (string * value))
  (log : list AxiosConfig) :
  nullish args = false ->
  let projectKey := argument args "projectKey" in
  let issueType := issueTypeOrDefault (argument args "issueType") in
  let priority := argument args "priority" in
  createFields projectKey (argument args "summary") (argument args "description")
    issueType priority (argument args "assignee") (argument args "labels") = Ok fields ->
  isScalar projectKey = true ->
  isScalar issueType = true ->
  isScalar priority = true ->
  exists t,
    callTool "jira_create_issue" args log
    = (Ok (textEnvelope t), (log ++ [createRequest fields])%list)
    /\ (prefix (tick ++ " Successfully created issue: **") t = true
        \/ prefix (cross ++ " Failed to create issue: ") t = true).
Proof.
  intros Hnn projectKey issueType priority Hfields Hpk Hit Hpr.
  destruct (toString_scalar _ Hpk) as [pk Hpks].
  destruct (toString_scalar _ Hit) as [it Hits].
  destruct (toString_scalar _ Hpr) as [pr Hprs].
  unfold callTool. rewrite dispatch_create, (createIssue_unfold _ Hnn). cbv zeta.
  fold projectKey issueType priority. rewrite Hfields, bind_lift_ok.
  match goal with
  | |- exists t, tryCatch (tryCatch ?m ?h) ?h' log = _ /\ _ =>
      assert (Hlog : snd (m log) = (log ++ [createRequest fields])%list)
        by (apply snd_request_then_silent; intro; silence);
      assert (Hcatch : forall e l, exists t,
                h e l = (Ok (textEnvelope t), l)
                /\ prefix (cross ++ " Failed to create issue: ") t = true);
      [| assert (Hbody : forall env l, m log = (Ok env, l) ->
                   exists t, env = textEnvelope t
                     /\ prefix (tick ++ " Successfully created issue: **") t = true);
         [| unfold tryCatch; destruct (m log) as [[env|e] l] eqn:Hrun;
            cbn [snd] in Hlog; subst l ] ]
  end.
  - intros e l. unfold tipProject, tipIssueType, tipPriority. cbn [template rbind].
    rewrite Hpks, Hits, Hprs. cbn [rbind].
    destruct (includes (message e) "project" || includes (message e) "Project");
      destruct (includes (message e) "issuetype" || includes (message e) "Issue Type");
      destruct (includes (message e) "priority");
      rewrite !bind_lift_ok; eexists; (split; [reflexivity |]);
      rewrite <- append_assoc; apply prefix_append.
  - intros env l. unfold bind at 1. rewrite makeJiraRequest_run.
    destruct (remote log _) as [resp|e]; [| discriminate].
    unfold bind at 1, lift. destruct (get resp "key") as [issueKey|e]; [| discriminate].
    unfold bind at 1.
    destruct (template [#(baseUrl config); #"/browse/"; $issueKey]) as [issueUrl|e];
      [| discriminate].
    unfold bind at 1, lift.
    match goal with
    | |- match ?r with Ok _ => _ | Throw _ => _ end = _ -> _ =>
        destruct r as [report|e] eqn:Hreport
    end; [| discriminate].
    unfold ret. intros H. injection H as <- _.
    exists report. split; [reflexivity |].
    eapply template_starts. exact Hreport.
  - destruct (Hbody env _ eq_refl) as (t & -> & Hstart).
    exists t. split; [reflexivity | now left].
  - destruct (Hcatch e (log ++ [createRequest fields])%list) as (t & Ht & Hstart).
    rewrite Ht. exists t. split; [reflexivity | now right].
Qed.

(** *** The tool list and the dispatcher *)

Lemma handled_at_undefined name :
  In name catalog ->
  dispatch name VUndefined [] <> (Throw (JsError ("Unknown tool: " ++ name)), []).
Proof.
  unfold catalog. cbn [In].
  intros [<- | [<- | [<- | [<- | [<- | [<- | []]]]]]] H.
  - apply (f_equal snd) in H. cbn [snd] in H.
    rewrite dispatch_get_issue in H. cbn [optGet nullish] in H.
    rewrite bind_lift_ok in H. unfold getIssue in H.
    cbn [template rbind toString] in H.
    rewrite bind_lift_ok, snd_request_then_silent in H by (intro; silence).
    discriminate H.
  - apply (f_equal snd) in H. cbn [snd] in H.
    rewrite dispatch_search in H. cbn [optGet nullish] in H.
    rewrite !bind_lift_ok, searchIssues_request in H. discriminate H.
  - apply (f_equal snd) in H. cbn [snd] in H.
    change (dispatch "jira_get_issue_comments" VUndefined)
      with (issueKey <~ optGet VUndefined "issueKey" ;; getIssueComments issueKey) in H.
    cbn [optGet nullish] in H.
    rewrite bind_lift_ok in H. unfold getIssueComments in H.
    cbn [template rbind toString] in H.
    rewrite bind_lift_ok, snd_request_then_silent in H by (intro; silence).
    discriminate H.
  - apply (f_equal snd) in H. cbn [snd] in H.
    change (dispatch "jira_get_transitions" VUndefined)
      with (issueKey <~ optGet VUndefined "issueKey" ;; getTransitions issueKey) in H.
    cbn [optGet nullish] in H.
    rewrite bind_lift_ok in H. unfold getTransitions in H.
    cbn [template rbind toString] in H.
    rewrite bind_lift_ok, snd_request_then_silent in H by (intro; silence).
    discriminate H.
  - rewrite dispatch_update in H. discriminate H.
  - rewrite dispatch_create in H. discriminate H.
Qed.

(** The tool list and the dispatcher agree: a name is advertised exactly
    when the dispatcher has a handler for it, every advertised tool is
    advertised once, its required arguments are among its declared
    properties, and the two defaults it advertises are the values the
    handlers fall back to. *)
Theorem tool_list_matches_dispatcher :
  (forall name,
     In name (map tool_name listTools)
     <-> dispatch name <> (fun _ => throw (JsError ("Unknown tool: " ++ name))))
  /\ NoDup (map tool_name listTools)
  /\ Forall (fun t => incl (is_required (inputSchema t))
                        (map fst (is_properties (inputSchema t)))) listTools
  /\ (forall args, truthy (argument args "maxResults") = false ->
        Some (orElse (argument args "maxResults") (VNum fifty))
        = advertisedDefault "jira_search_issues" "maxResults")
  /\ Some (issueTypeOrDefault VUndefined) = advertisedDefault "jira_create_issue" "issueType".
Proof.
  split; [| split; [| split; [| split]]].
  - intro name. change (map tool_name listTools) with catalog. split.
    + intros Hin Heq. apply (handled_at_undefined name Hin). now rewrite Heq.
    + intros Hne. destruct (in_dec string_dec name catalog) as [Hin | Hout]; [exact Hin |].
      exfalso. apply Hne. unfold dispatch.
      repeat match goal with
      | |- context [String.eqb name ?n] =>
          destruct (String.eqb_spec name n) as [->|_];
          [exfalso; apply Hout; unfold catalog; simpl; tauto |]
      end.
      reflexivity.
  - cbn. repeat constructor; cbn; intuition discriminate.
  - unfold listTools. repeat apply Forall_cons; try apply Forall_nil;
      intros x Hx; cbn in Hx; cbn;
      repeat (destruct Hx as [<- | Hx]; [tauto |]); contradiction.
  - intros args Hfalsy. unfold orElse. now rewrite Hfalsy.
  - reflexivity.
Qed.

Lemma getIssue_text_request key log :
  snd (getIssue (VStr key) log) = (log ++ [issueRequest key])%list.
Proof.
  unfold getIssue. rewrite issue_endpoint, bind_lift_ok.
  apply snd_request_then_silent. intro; silence.
Qed.
End Server.

(** ** The statements at concrete inputs *)

Abbreviation sampleCall remote :=
  (callTool sampleConfig remote sampleNumberToString sampleStringToNumber
     sampleDate sampleBase64 sampleToLowerCase).

(** C1: a remote failure inside Create Issue is reported by the handler's
    own line, which does not begin with "Error:". *)
Lemma create_failure_is_not_error_prefixed :
  let remote := rejecting "Request failed with status code 400" in
  let args := VObj [("projectKey", VStr "PROJ"); ("summary", VStr "Fix login")] in
  let out := sampleCall remote "jira_create_issue" args [] in
  (exists request, snd out = [request]
     /\ remote [] request = Throw (JsError "Request failed with status code 400"))
  /\ fst out
     = Ok (textEnvelope (cross ++ " Failed to create issue: Request failed with status code 400"))
  /\ prefix "Error:"
       (cross ++ " Failed to create issue: Request failed with status code 400") = false.
Proof.
  cbv zeta. split; [eexists; split; reflexivity | split; reflexivity].
Defined.

Lemma callTool_always_reports_witness :
  exists t,
    sampleCall (rejecting "offline") "jira_delete_issue" VUndefined []
    = (Ok (textEnvelope t), [])
    /\ t = "Error: Unknown tool: jira_delete_issue".
Proof.
  destruct (callTool_always_reports sampleConfig (rejecting "offline")
              sampleNumberToString sampleStringToNumber sampleDate sampleBase64 sampleToLowerCase
              "jira_delete_issue" VUndefined [])
    as (t & Hrun & _ & _ & _ & Hunknown).
  exists t. split; [exact Hrun |].
  apply Hunknown. unfold catalog. simpl.
  intros H. repeat (destruct H as [H | H]; [discriminate H |]). exact H.
Defined.



Lemma transition_not_found_witness :
  sampleCall (answering doneTransitions) "jira_update_issue"
    (VObj [("issueKey", VStr "PROJ-1"); ("transition", VStr "NonexistentStatus")]) []
  = (Ok (textEnvelope
           ("Update results for PROJ-1:" ++ nl ++ nl ++ cross
            ++ " Failed to change status: Transition " ++ dquote ++ "NonexistentStatus"
            ++ dquote
            ++ " not found. Use jira_get_transitions to see available options." ++ nl)),
     [transitionsRequest sampleConfig sampleBase64 "PROJ-1"]).
Proof.
  apply (transition_not_found sampleConfig (answering doneTransitions)
           sampleNumberToString sampleStringToNumber sampleDate sampleBase64 sampleToLowerCase
           (VObj [("issueKey", VStr "PROJ-1"); ("transition", VStr "NonexistentStatus")])
           doneTransitions "PROJ-1" "NonexistentStatus"
           [VObj [("id", VStr "1"); ("name", VStr "Done");
                  ("to", VObj [("name", VStr "Done")])]] []).
  - reflexivity.
  - reflexivity.
  - discriminate.
  - repeat constructor.
  - reflexivity.
  - reflexivity.
  - repeat constructor.
Defined.

Lemma transition_resolution_witness :
  let done := VObj [("id", VStr "1"); ("name", VStr "Done");
                    ("to", VObj [("name", VStr "Done")])] in
  findTransition sampleToLowerCase (VStr "done") (VArr [done]) = Ok done
  /\ exists more,
       snd (sampleCall (answering doneTransitions) "jira_update_issue"
              (VObj [("issueKey", VStr "PROJ-1"); ("transition", VStr "done")]) [])
       = transitionsRequest sampleConfig sampleBase64 "PROJ-1"
         :: submitRequest sampleConfig sampleBase64 "PROJ-1" (VStr "1") :: more.
Proof.
  intro done.
  destruct (transition_resolution sampleConfig (answering doneTransitions)
              sampleNumberToString sampleStringToNumber sampleDate sampleBase64 sampleToLowerCase
              (VObj [("issueKey", VStr "PROJ-1"); ("transition", VStr "done")])
              doneTransitions "PROJ-1" "done" [] [] done [])
    as (Hfound & Hsent & _).
  - reflexivity.
  - reflexivity.
  - discriminate.
  - reflexivity.
  - reflexivity.
  - constructor.
  - reflexivity.
  - split; [exact Hfound | exact Hsent].
Defined.

Lemma create_with_required_only_witness :
  let fields :=
    [("project", VObj [("key", VStr "PROJ")]);
     ("summary", VStr "Fix login");
     ("issuetype", VObj [("name", VStr "Task")])] in
  snd (sampleCall (rejecting "offline") "jira_create_issue"
         (VObj [("projectKey", VStr "PROJ"); ("summary", VStr "Fix login")]) [])
  = [createRequest sampleConfig sampleBase64 fields]
  /\ data (createRequest sampleConfig sampleBase64 fields)
     = Some (VObj [("fields", VObj fields)]).
Proof.
  intro fields.
  destruct (create_with_required_only sampleConfig (rejecting "offline")
              sampleNumberToString sampleStringToNumber sampleDate sampleBase64 sampleToLowerCase
              (VObj [("projectKey", VStr "PROJ"); ("summary", VStr "Fix login")])
              (VStr "PROJ") (VStr "Fix login") [])
    as (Hsent & _ & Hbody).
  - reflexivity.
  - reflexivity.
  - repeat constructor.
  - split; [exact Hsent | exact Hbody].
Defined.

Lemma search_without_matches_witness :
  fst (sampleCall (answering (VObj [("issues", VArr [])])) "jira_search_issues"
         (VObj [("jql", VStr "project = NONE")]) [])
  = Ok (textEnvelope ("Found 0 issues:" ++ nl ++ nl)).
Proof.
  rewrite (search_without_matches sampleConfig (answering (VObj [("issues", VArr [])]))
             sampleNumberToString sampleStringToNumber sampleDate sampleBase64 sampleToLowerCase
             (VObj [("jql", VStr "project = NONE")]) (VObj [("issues", VArr [])]) []).
  - reflexivity.
  - reflexivity.
  - reflexivity.
Defined.

Lemma issue_without_description_witness :
  exists report,
    sampleCall (answering issueWithoutDescription) "jira_get_issue"
      (VObj [("issueKey", VStr "PROJ-1")]) []
    = (Ok (textEnvelope report), [issueRequest sampleConfig sampleBase64 "PROJ-1"])
    /\ mentions report ("**Acceptance Criteria:**" ++ nl ++ "None found" ++ nl).
Proof.
  apply (issue_without_description sampleConfig (answering issueWithoutDescription)
           sampleNumberToString sampleStringToNumber sampleDate sampleBase64 sampleToLowerCase
           (VObj [("issueKey", VStr "PROJ-1")]) issueWithoutDescription "PROJ-1" []);
    reflexivity.
Defined.

Lemma search_never_asks_for_zero_witness :
  snd (sampleCall (rejecting "offline") "jira_search_issues"
         (VObj [("jql", VStr "project = PROJ");
                ("maxResults", VNum (S754_zero false))]) [])
  = [searchRequest sampleConfig sampleBase64 (VStr "project = PROJ") (VNum fifty)].
Proof.
  apply (search_never_asks_for_zero sampleConfig (rejecting "offline")
           sampleNumberToString sampleStringToNumber sampleDate sampleBase64 sampleToLowerCase
           (VObj [("jql", VStr "project = PROJ");
                  ("maxResults", VNum (S754_zero false))]) []).
Defined.

Lemma update_without_values_witness :
  sampleCall (rejecting "offline") "jira_update_issue"
    (VObj [("issueKey", VStr "PROJ-1"); ("summary", VStr EmptyString)]) []
  = (Ok (textEnvelope ("Update results for PROJ-1:" ++ nl ++ nl
                       ++ "No updates requested")), []).
Proof.
  apply (update_without_values sampleConfig (rejecting "offline")
           sampleNumberToString sampleStringToNumber sampleDate sampleBase64 sampleToLowerCase
           (VObj [("issueKey", VStr "PROJ-1"); ("summary", VStr EmptyString)])
           "PROJ-1" []).
  - reflexivity.
  - repeat constructor.
Defined.

(** ** The configuration read from the environment *)

(** A server started from an environment sends its requests to the base
    URL found there; the base URL is never empty, an unset or empty
    variable giving the placeholder domain, and without credentials the
    authorization header encodes the lone colon. *)
Theorem server_from_environment (env : string -> option string) (remote : Remote)
  (numberToString : spec_float -> string) (stringToNumber : string -> spec_float)
  (toLocaleDateString : value -> string) (base64 : string -> string)
  (toLowerCase : string -> string)
  (args : value) (key : string) (log : list AxiosConfig) :
  argument args "issueKey" = VStr key ->
  let cfg := loadConfig env in
  snd (callTool cfg remote numberToString stringToNumber toLocaleDateString base64
         toLowerCase "jira_get_issue" args log)
  = (log ++ [issueRequest cfg base64 key])%list
  /\ url (issueRequest cfg base64 key)
     = envOr env "JIRA_BASE_URL" "https://your-domain.atlassian.net"
       ++ "/rest/api/3/issue/" ++ key
  /\ baseUrl cfg <> EmptyString
  /\ (env "JIRA_BASE_URL" = None \/ env "JIRA_BASE_URL" = Some EmptyString ->
      baseUrl cfg = "https://your-domain.atlassian.net")
  /\ (env "JIRA_EMAIL" = None -> env "JIRA_API_TOKEN" = None ->
      In ("Authorization", "Basic " ++ base64 ":")
        (headers (issueRequest cfg base64 key))).
Proof.
  intros Hkey cfg.
  split; [| split; [| split; [| split]]].
  - rewrite callTool_requests, dispatch_get_issue, optGet_argument, Hkey, bind_lift_ok.
    apply getIssue_text_request.
  - unfold issueRequest, requestConfig. cbn [url baseUrl cfg loadConfig].
    now rewrite append_assoc.
  - cbn [baseUrl cfg loadConfig]. unfold envOr.
    destruct (env "JIRA_BASE_URL") as [[| c v]|]; cbn [isEmpty]; discriminate.
  - cbn [baseUrl cfg loadConfig]. unfold envOr. intros [-> | ->]; reflexivity.
  - intros Hemail Htoken. unfold issueRequest, requestConfig.
    cbn [headers email apiToken cfg loadConfig]. unfold envOr.
    rewrite Hemail, Htoken. left. reflexivity.
Qed.

(** ** The further statements at concrete inputs *)

Abbreviation onSample statement remote :=
  (statement sampleConfig remote sampleNumberToString sampleStringToNumber
     sampleDate sampleBase64 sampleToLowerCase).

Lemma server_from_environment_witness :
  baseUrl (loadConfig emptyEnv) = "https://your-domain.atlassian.net"
  /\ snd (callTool (loadConfig emptyEnv) (rejecting "offline") sampleNumberToString
            sampleStringToNumber sampleDate sampleBase64 sampleToLowerCase
            "jira_get_issue" (VObj [("issueKey", VStr "PROJ-1")]) [])
     = [issueRequest (loadConfig emptyEnv) sampleBase64 "PROJ-1"].
Proof.
  destruct (server_from_environment emptyEnv (rejecting "offline") sampleNumberToString
              sampleStringToNumber sampleDate sampleBase64 sampleToLowerCase
              (VObj [("issueKey", VStr "PROJ-1")]) "PROJ-1" [] eq_refl)
    as (Hsent & _ & _ & Hplace & _).
  split; [apply Hplace; now left | exact Hsent].
Defined.

Lemma reading_tools_only_get_witness :
  let out := snd (sampleCall (rejecting "offline") "jira_get_transitions"
                    (VObj [("issueKey", VStr "PROJ-1")]) []) in
  out = []
  \/ exists c, out = [c] /\ method c = GET /\ data c = None
               /\ wellFormedRequest sampleConfig sampleBase64 c.
Proof.
  apply (onSample reading_tools_only_get (rejecting "offline") "jira_get_transitions"
           (VObj [("issueKey", VStr "PROJ-1")]) []).
  cbn. tauto.
Defined.

Lemma update_request_pattern_witness :
  exists status sent,
    snd (sampleCall (rejecting "offline") "jira_update_issue"
           (VObj [("issueKey", VStr "PROJ-1"); ("summary", VStr "New title")]) [])
    = (status ++ sent)%list
    /\ status = []
    /\ In (map method sent) [[]; [PUT]].
Proof.
  destruct (onSample update_request_pattern (rejecting "offline")
              (VObj [("issueKey", VStr "PROJ-1"); ("summary", VStr "New title")]) [])
    as (status & sent & Hrun & _ & Hsent & Hnone & _).
  exists status, sent. split; [exact Hrun | split; [apply Hnone; reflexivity | exact Hsent]].
Defined.

Lemma every_request_well_formed_witness :
  exists more,
    snd (sampleCall (rejecting "offline") "jira_delete_issue" VUndefined []) = more
    /\ more = [].
Proof.
  destruct (onSample every_request_well_formed (rejecting "offline")
              "jira_delete_issue" VUndefined [])
    as (more & Hrun & _ & _ & Hunknown).
  exists more. split; [exact Hrun |].
  apply Hunknown. unfold catalog. cbn [In].
  intros H. repeat (destruct H as [H | H]; [discriminate H |]). exact H.
Defined.

Lemma update_phases_independent_witness :
  sampleCall (rejectingGets "Request failed with status code 404") "jira_update_issue"
    (VObj [("issueKey", VStr "PROJ-1"); ("transition", VStr "Done");
           ("summary", VStr "New title")]) []
  = (Ok (textEnvelope
           ("Update results for PROJ-1:" ++ nl ++ nl
            ++ cross ++ " Failed to change status: Request failed with status code 404" ++ nl
            ++ tick ++ " Updated fields: summary" ++ nl)),
     [transitionsRequest sampleConfig sampleBase64 "PROJ-1";
      updateRequest sampleConfig sampleBase64 "PROJ-1" [("summary", VStr "New title")]]).
Proof.
  apply (onSample update_phases_independent
           (rejectingGets "Request failed with status code 404")
           (VObj [("issueKey", VStr "PROJ-1"); ("transition", VStr "Done");
                  ("summary", VStr "New title")])
           "PROJ-1" "Done" (JsError "Request failed with status code 404") []).
  - reflexivity.
  - reflexivity.
  - discriminate.
  - discriminate.
  - reflexivity.
Defined.

Lemma update_fields_only_witness :
  sampleCall (answering (VStr EmptyString)) "jira_update_issue"
    (VObj [("issueKey", VStr "PROJ-1"); ("assignee", VStr "ada@example.com");
           ("priority", VStr "High")]) []
  = (Ok (textEnvelope
           ("Update results for PROJ-1:" ++ nl ++ nl
            ++ tick ++ " Updated fields: assignee, priority" ++ nl)),
     [updateRequest sampleConfig sampleBase64 "PROJ-1"
        [("assignee", VObj [("emailAddress", VStr "ada@example.com")]);
         ("priority", VObj [("name", VStr "High")])]]).
Proof.
  apply (onSample update_fields_only (answering (VStr EmptyString))
           (VObj [("issueKey", VStr "PROJ-1"); ("assignee", VStr "ada@example.com");
                  ("priority", VStr "High")]) "PROJ-1" []).
  - reflexivity.
  - reflexivity.
  - discriminate.
Defined.

Lemma reading_tool_reports_rejection_witness :
  exists c,
    sampleCall (rejecting "Request failed with status code 404") "jira_get_issue"
      (VObj [("issueKey", VStr "PROJ-404")]) []
    = (Ok (textEnvelope "Error: Request failed with status code 404"), [c])
    /\ method c = GET.
Proof.
  apply (onSample reading_tool_reports_rejection
           (rejecting "Request failed with status code 404") "jira_get_issue"
           (VObj [("issueKey", VStr "PROJ-404")])
           (JsError "Request failed with status code 404") []).
  - cbn. tauto.
  - reflexivity.
  - reflexivity.
Defined.

Lemma missing_issue_key_is_sent_witness :
  snd (sampleCall (rejecting "offline") "jira_get_issue" VUndefined [])
  = [issueRequest sampleConfig sampleBase64 "undefined"].
Proof.
  apply (onSample missing_issue_key_is_sent (rejecting "offline") VUndefined []).
  reflexivity.
Defined.

Lemma create_rejection_reported_witness :
  sampleCall (rejecting "Specify a valid project") "jira_create_issue"
    (VObj [("projectKey", VStr "NOPE"); ("summary", VStr "Fix login")]) []
  = (Ok (textEnvelope
           (cross ++ " Failed to create issue: Specify a valid project" ++ nl ++ nl
            ++ "Tip: Make sure the project key " ++ dquote ++ "NOPE" ++ dquote
            ++ " exists and you have permission to create issues in it.")),
     [createRequest sampleConfig sampleBase64
        [("project", VObj [("key", VStr "NOPE")]);
         ("summary", VStr "Fix login");
         ("issuetype", VObj [("name", VStr "Task")])]]).
Proof.
  apply (onSample create_rejection_reported (rejecting "Specify a valid project")
           (VObj [("projectKey", VStr "NOPE"); ("summary", VStr "Fix login")])
           [("project", VObj [("key", VStr "NOPE")]);
            ("summary", VStr "Fix login");
            ("issuetype", VObj [("name", VStr "Task")])]
           "NOPE" "Task" "undefined" (JsError "Specify a valid project") []);
    reflexivity.
Defined.

Lemma create_labels_must_be_a_list_witness :
  sampleCall (rejecting "offline") "jira_create_issue"
    (VObj [("projectKey", VStr "PROJ"); ("summary", VStr "Fix login");
           ("labels", VStr "bug")]) []
  = (Ok (textEnvelope "Error: labels.map is not a function"), []).
Proof.
  apply (onSample create_labels_must_be_a_list (rejecting "offline")
           (VObj [("projectKey", VStr "PROJ"); ("summary", VStr "Fix login");
                  ("labels", VStr "bug")]) "bug" []).
  - reflexivity.
  - reflexivity.
  - discriminate.
  - cbn. lia.
Defined.

Lemma create_accepted_witness :
  sampleCall (answering created) "jira_create_issue"
    (VObj [("projectKey", VStr "PROJ"); ("summary", VStr "Fix login");
           ("priority", VStr "High"); ("labels", VArr [VStr "bug"; VStr "ui"])]) []
  = (Ok (textEnvelope
           (createdReport sampleConfig "PROJ-7" "PROJ" "Fix login" None None
              (Some "High") None ["bug"; "ui"])),
     [createRequest sampleConfig sampleBase64
        [("project", VObj [("key", VStr "PROJ")]);
         ("summary", VStr "Fix login");
         ("issuetype", VObj [("name", VStr "Task")]);
         ("priority", VObj [("name", VStr "High")]);
         ("labels", VArr [VObj [("name", VStr "bug")]; VObj [("name", VStr "ui")]])]]).
Proof.
  apply (onSample create_accepted (answering created)
           (VObj [("projectKey", VStr "PROJ"); ("summary", VStr "Fix login");
                  ("priority", VStr "High"); ("labels", VArr [VStr "bug"; VStr "ui"])])
           created "PROJ-7" "PROJ" "Fix login" None None (Some "High") None
           ["bug"; "ui"] []).
  - reflexivity.
  - reflexivity.
  - reflexivity.
  - reflexivity.
  - reflexivity.
  - reflexivity.
  - left. reflexivity.
  - cbn. lia.
  - reflexivity.
  - reflexivity.
Defined.

Lemma transitions_listed_witness :
  sampleCall (answering inReview) "jira_get_transitions"
    (VObj [("issueKey", VStr "PROJ-1")]) []
  = (Ok (textEnvelope ("Available transitions for PROJ-1:" ++ nl ++ nl
                       ++ "**In Review** (ID: 11) -> In Review")),
     [transitionsRequest sampleConfig sampleBase64 "PROJ-1"]).
Proof.
  apply (onSample transitions_listed (answering inReview)
           (VObj [("issueKey", VStr "PROJ-1")]) inReview
           (VArr [VObj [("id", VStr "11"); ("name", VStr "In Review");
                        ("to", VObj [("name", VStr "In Review")])]])
           "PROJ-1"
           [{| tr_id := "11"; tr_name := "In Review"; tr_to := "In Review" |}] []).
  - reflexivity.
  - reflexivity.
  - reflexivity.
  - left. reflexivity.
Defined.

Lemma search_lists_issues_witness :
  fst (sampleCall (answering oneIssueFound) "jira_search_issues"
         (VObj [("jql", VStr "project = PROJ")]) [])
  = Ok (textEnvelope
          ("Found 1 issues:" ++ nl ++ nl
           ++ "**PROJ-1**: Fix login" ++ nl
           ++ "- Status: Open" ++ nl
           ++ "- Assignee: Unassigned" ++ nl
           ++ "- Priority: High" ++ nl
           ++ "- URL: https://example.atlassian.net/browse/PROJ-1")).
Proof.
  rewrite (onSample search_lists_issues (answering oneIssueFound)
             (VObj [("jql", VStr "project = PROJ")]) oneIssueFound
             (VArr [VObj [("key", VStr "PROJ-1");
                          ("fields",
                           VObj [("summary", VStr "Fix login");
                                 ("status", VObj [("name", VStr "Open")]);
                                 ("assignee", VNull);
                                 ("priority", VObj [("name", VStr "High")])])]])
             [{| row_key := "PROJ-1"; row_summary := "Fix login"; row_status := "Open";
                 row_assignee := None; row_priority := "High" |}] []).
  - reflexivity.
  - reflexivity.
  - reflexivity.
  - left. reflexivity.
Defined.

Lemma comments_listed_witness :
  fst (sampleCall (answering oneComment) "jira_get_issue_comments"
         (VObj [("issueKey", VStr "PROJ-1")]) [])
  = Ok (textEnvelope ("Comments for PROJ-1:" ++ nl ++ nl
                      ++ "**Ada** (Invalid Date):" ++ nl ++ "Looks good")).
Proof.
  rewrite (onSample comments_listed (answering oneComment)
             (VObj [("issueKey", VStr "PROJ-1")]) oneComment
             (VArr [VObj [("author", VObj [("displayName", VStr "Ada")]);
                          ("created", VStr "2024-01-01T00:00:00.000+0000");
                          ("renderedBody", VUndefined);
                          ("body", VStr "Looks good")]])
             "PROJ-1"
             [{| cm_author := "Ada"; cm_created := "2024-01-01T00:00:00.000+0000";
                 cm_rendered := None; cm_body := "Looks good" |}] []).
  - reflexivity.
  - reflexivity.
  - reflexivity.
  - reflexivity.
  - left. reflexivity.
Defined.


Lemma structured_description_is_an_error_witness :
  sampleCall (answering issueWithStructuredDescription) "jira_get_issue"
    (VObj [("issueKey", VStr "PROJ-1")]) []
  = (Ok (textEnvelope "Error: description.match is not a function"),
     [issueRequest sampleConfig sampleBase64 "PROJ-1"]).
Proof.
  apply (onSample structured_description_is_an_error
           (answering issueWithStructuredDescription)
           (VObj [("issueKey", VStr "PROJ-1")]) issueWithStructuredDescription
           VUndefined (VObj [("type", VStr "doc")]) "PROJ-1" []).
  - reflexivity.
  - reflexivity.
  - reflexivity.
  - reflexivity.
  - reflexivity.
  - intros s. discriminate.
Defined.


Lemma criteria_are_trimmed_witness :
  Forall (fun c => c <> EmptyString /\ trim c = c) (collectCriteria "AC:  padded  ").
Proof. apply (criteria_are_trimmed "AC:  padded  "). Defined.

Lemma update_always_reports_witness :
  exists body,
    fst (sampleCall (rejecting "offline") "jira_update_issue"
           (VObj [("issueKey", VStr "PROJ-1"); ("transition", VStr "Done")]) [])
    = Ok (textEnvelope ("Update results for PROJ-1:" ++ nl ++ nl ++ body))
    /\ body <> EmptyString.
Proof.
  apply (onSample update_always_reports (rejecting "offline")
           (VObj [("issueKey", VStr "PROJ-1"); ("transition", VStr "Done")])
           "PROJ-1" []); reflexivity.
Defined.

Lemma create_always_reports_witness :
  exists t,
    sampleCall (answering VNull) "jira_create_issue"
      (VObj [("projectKey", VStr "PROJ"); ("summary", VStr "Fix login")]) []
    = (Ok (textEnvelope t),
       [createRequest sampleConfig sampleBase64
          [("project", VObj [("key", VStr "PROJ")]);
           ("summary", VStr "Fix login");
           ("issuetype", VObj [("name", VStr "Task")])]])
    /\ (prefix (tick ++ " Successfully created issue: **") t = true
        \/ prefix (cross ++ " Failed to create issue: ") t = true).
Proof.
  apply (onSample create_always_reports (answering VNull)
           (VObj [("projectKey", VStr "PROJ"); ("summary", VStr "Fix login")])
           [("project", VObj [("key", VStr "PROJ")]);
            ("summary", VStr "Fix login");
            ("issuetype", VObj [("name", VStr "Task")])] []); reflexivity.
Defined.

Lemma tool_list_matches_dispatcher_witness :
  In "jira_create_issue" (map tool_name listTools)
  /\ ~ In "jira_delete_issue" (map tool_name listTools).
Proof.
  destruct (onSample tool_list_matches_dispatcher (rejecting "offline"))
    as (Hnames & _).
  split.
  - apply Hnames. intros H.
    apply (f_equal (fun f => fst (f VUndefined []))) in H. discriminate H.
  - intros Hin. apply Hnames in Hin. apply Hin. reflexivity.
Defined.
